(** * ImageStore: the serializers of [core/serializers.py]

    A shallow embedding of the three Django REST Framework serializers of the
    ImageStore API ([LabelSerializer], [AnnotationSerializer],
    [ImageSerializer]) over an explicit database state, followed by the
    properties of the written specification that they satisfy or break.

    Layout:
    - [Py]: the Python built-ins the serializers call ([str.lower],
      [str.join], [int], truthiness, f-string formatting);
    - [Drf]: the pieces of Django and of the REST framework that the
      serializers rely on (exceptions with their detail, [IntegerField],
      [get_valid_filename]);
    - [Store]: the tables and the state-and-exception monad with
      [transaction.atomic];
    - [LabelSerializer], [AnnotationSerializer], [ImageSerializer]: the
      source classes, method by method;
    - the properties. *)

From Stdlib Require Import ZArith String Ascii List Bool Lia.
From stdpp Require Import base option list strings gmap.

Set Warnings "-register-all".
Local Open Scope string_scope.
Local Open Scope Z_scope.

(** ** Python built-ins

    Strings are sequences of ASCII characters; the functions below are the
    built-ins on that range. *)

Module Py.

Definition code (c : ascii) : N := N_of_ascii c.

Definition between (lo hi : N) (c : ascii) : bool :=
  ((lo <=? code c) && (code c <=? hi))%N.

Definition is_upper : ascii → bool := between 65 90.
Definition is_lower : ascii → bool := between 97 122.
Definition is_digit : ascii → bool := between 48 57.

(** [str.isspace] on the ASCII range: TAB..CR, FS..US and the blank. *)
Definition is_space (c : ascii) : bool :=
  between 9 13 c || between 28 32 c.

Definition lower_char (c : ascii) : ascii :=
  if is_upper c then ascii_of_N (code c + 32) else c.

(** [s.lower()] *)
Fixpoint lower (s : string) : string :=
  match s with
  | EmptyString => EmptyString
  | String c r => String (lower_char c) (lower r)
  end.

(** [sep.join(xs)] on a list of strings *)
Fixpoint join (sep : string) (xs : list string) : string :=
  match xs with
  | [] => ""
  | [x] => x
  | x :: r => x +:+ sep +:+ join sep r
  end.

(** [x in xs] for a list of strings *)
Definition contains (xs : list string) (x : string) : bool :=
  existsb (String.eqb x) xs.

(** [len(s)] *)
Definition len (s : string) : Z := Z.of_nat (String.length s).

Fixpoint lstrip (s : string) : string :=
  match s with
  | String c r => if is_space c then lstrip r else s
  | EmptyString => EmptyString
  end.

Fixpoint all_space (s : string) : bool :=
  match s with
  | EmptyString => true
  | String c r => is_space c && all_space r
  end.

Fixpoint rstrip (s : string) : string :=
  match s with
  | EmptyString => EmptyString
  | String c r => if all_space s then EmptyString else String c (rstrip r)
  end.

(** [s.strip()] *)
Definition strip (s : string) : string := rstrip (lstrip s).

(** [s.replace(a, b)] for single characters *)
Fixpoint replace_char (a b : ascii) (s : string) : string :=
  match s with
  | EmptyString => EmptyString
  | String c r =>
      String (if Ascii.eqb c a then b else c) (replace_char a b r)
  end.

Fixpoint filter_chars (keep : ascii → bool) (s : string) : string :=
  match s with
  | EmptyString => EmptyString
  | String c r =>
      if keep c then String c (filter_chars keep r) else filter_chars keep r
  end.

Definition digit_value (c : ascii) : Z := Z.of_N (code c - 48).

(** The digit part of an integer literal as [int] reads it: decimal
    digits, single underscores allowed between two digits only. *)
Fixpoint int_digits (acc : Z) (after_digit : bool) (s : string) : option Z :=
  match s with
  | EmptyString => if after_digit then Some acc else None
  | String c r =>
      if is_digit c then int_digits (10 * acc + digit_value c) true r
      else if Ascii.eqb c "_" then
        if after_digit then int_digits acc false r else None
      else None
  end.

(** [int(s)] for a string: surrounding blanks are ignored, one optional
    sign, then the digits.  [None] stands for [ValueError]. *)
Definition int (s : string) : option Z :=
  match strip s with
  | EmptyString => None
  | String c r =>
      if Ascii.eqb c "-" then Z.opp <$> int_digits 0 false r
      else if Ascii.eqb c "+" then int_digits 0 false r
      else int_digits 0 false (String c r)
  end.

Definition is_letter (c : ascii) : bool := is_upper c || is_lower c.

(** [any(c.isalpha() for c in s)] on ASCII *)
Fixpoint has_letter (s : string) : bool :=
  match s with
  | EmptyString => false
  | String c r => is_letter c || has_letter r
  end.

Fixpoint nat_digits (fuel : nat) (n : N) (acc : string) : string :=
  match fuel with
  | O => acc
  | S fuel' =>
      let acc' := String (ascii_of_N (48 + n mod 10)) acc in
      if (n / 10 =? 0)%N then acc' else nat_digits fuel' (n / 10)%N acc'
  end.

(** [str(n)] for an integer, as an f-string prints it. *)
Definition str_of_int (z : Z) : string :=
  let n := Z.abs_N z in
  let d := nat_digits (S (N.to_nat (N.log2 n))) n "" in
  if z <? 0 then String "-" d else d.

(** [repr(xs)] for a list of plain strings: ['a', 'b']. *)
Definition repr_str_list (xs : list string) : string :=
  "[" +:+ join ", " (map (λ x, "'" +:+ x +:+ "'") xs) +:+ "]".

End Py.


(** ** Django and the REST framework *)

Module Drf.

(** The detail of a [ValidationError]: a list of messages for a field, a
    dictionary keyed by field name for a serializer, a list with one entry
    per item for a list serializer. *)
Inductive detail : Type :=
| Messages (ms : list string)
| FieldErrors (es : list (string * detail))
| ItemErrors (es : list detail).

Inductive exn : Type :=
| ValidationError (d : detail)
| IntegrityError (constraint : string)
| KeyError (key : string)
| IndexError
| TypeError (what : string).

Inductive result (A : Type) : Type :=
| Ok (a : A)
| Raise (e : exn).
Arguments Ok {A} a.
Arguments Raise {A} e.

#[export] Instance result_ret : MRet result := @Ok.
#[export] Instance result_bind : MBind result :=
  λ A B k m, match m with Ok a => k a | Raise e => Raise e end.

#[export] Instance result_fmap : FMap result :=
  λ A B f r, match r with Ok a => Ok (f a) | Raise e => Raise e end.

Definition is_ok {A} (r : result A) : bool :=
  match r with Ok _ => true | Raise _ => false end.

(** [raise serializers.ValidationError(msg)] *)
Definition validation_error {A} (msg : string) : result A :=
  Raise (ValidationError (Messages [msg])).

(** [bool(detail)], as [any(errors)] reads the entries of a list
    serializer: an empty dictionary or list is false. *)
Definition detail_truthy (d : detail) : bool :=
  match d with
  | Messages ms => negb (bool_decide (ms = []))
  | FieldErrors [] => false
  | FieldErrors (_ :: _) => true
  | ItemErrors [] => false
  | ItemErrors (_ :: _) => true
  end.

(** The value that stands under [image_id] in an annotation payload: a
    JSON number, or a string (the stored file name that
    [ImageSerializer.create] puts there). *)
Inductive scalar : Type :=
| SInt (z : Z)
| SStr (s : string).

Fixpoint zeros_then_space (s : string) : bool :=
  match s with
  | EmptyString => true
  | String c r =>
      if Ascii.eqb c "0" then zeros_then_space r else Py.all_space s
  end.

(** [IntegerField.re_decimal.sub('', s)]: the pattern [\.0*\s*$] removes a
    final dot followed by zeros only, so that [1.0] reads as an integer. *)
Fixpoint re_decimal_sub (s : string) : string :=
  match s with
  | EmptyString => EmptyString
  | String c r =>
      if Ascii.eqb c "." && zeros_then_space r then EmptyString
      else String c (re_decimal_sub r)
  end.

Definition MAX_STRING_LENGTH : Z := 1000.

(** [IntegerField.to_internal_value] *)
Definition IntegerField_to_internal_value (data : scalar) : result Z :=
  match data with
  | SInt z => Ok z
  | SStr s =>
      if MAX_STRING_LENGTH <? Py.len s then
        validation_error "String value too large."
      else
        match Py.int (re_decimal_sub s) with
        | Some z => Ok z
        | None => validation_error "A valid integer is required."
        end
  end.

Definition is_filename_char (c : ascii) : bool :=
  Py.is_upper c || Py.is_lower c || Py.is_digit c
  || Ascii.eqb c "_" || Ascii.eqb c "-" || Ascii.eqb c ".".

(** [django.utils.text.get_valid_filename] on ASCII names: blanks at both
    ends are dropped, inner blanks become underscores, and every character
    that is not a letter, a digit, an underscore, a dash or a dot is
    removed. *)
Definition get_valid_filename (name : string) : string :=
  Py.filter_chars is_filename_char
    (Py.replace_char " " "_" (Py.strip name)).

(** An insertion-ordered dictionary with string keys. *)
Definition dict (V : Type) : Type := list (string * V).

Definition keys {V} (d : dict V) : list string := map fst d.

(** [d.get(k)] *)
Fixpoint get {V} (k : string) (d : dict V) : option V :=
  match d with
  | [] => None
  | (k', v) :: r => if String.eqb k' k then Some v else get k r
  end.

(** [d[k] = v] for a key that [d] may already hold: the entry keeps its
    place; a new key goes to the end. *)
Fixpoint set {V} (k : string) (v : V) (d : dict V) : dict V :=
  match d with
  | [] => [(k, v)]
  | (k', v') :: r =>
      if String.eqb k' k then (k, v) :: r else (k', v') :: set k v r
  end.

(** A rendered value. *)
Inductive json : Type :=
| JNull
| JStr (s : string)
| JInt (z : Z)
| JList (l : list json)
| JDict (kv : list (string * json)).

End Drf.
Export Drf.

(** ** The tables and the unit of work *)

Module Store.

(** Modelled from the spec: [core/models.py] is not part of the sources.
    An Image is identified by its stored file name, unique across Images;
    an Annotation has an integer key and refers to its Image; a Label has
    a client-suppliable identifier, unique across Labels, a reference to
    its Annotation, a class identifier, a surface (a sequence of points,
    each a string), a shape descriptor and free-form metadata. *)
Record Image : Type := { image_file_name : string }.

(** Modelled from the spec: the Annotation model, its key and the
    reference to the owning Image as [AnnotationSerializer] validates it. *)
Record Annotation : Type :=
  { annotation_pk : Z;
    annotation_image_id : option Z }.

(** Modelled from the spec: the Label model; the identifier is the text of
    a UUID. *)
Record Label : Type :=
  { label_id : string;
    label_annotation_id : option Z;
    label_class_id : string;
    label_surface : list string;
    label_shape : json;
    label_meta : json }.

(** The rows: what a transaction commits or rolls back. *)
Record DB : Type :=
  { images : list Image;
    annotations : list Annotation;
    labels : list Label }.

(** The rows together with what a rollback does not restore: the sequence
    of annotation keys and the source of random identifiers. *)
Record World : Type :=
  { db : DB;
    annotation_seq : Z;
    uuid_seed : N }.

Definition M (A : Type) : Type := World → result A * World.

#[export] Instance M_ret : MRet M := λ A a w, (Ok a, w).
#[export] Instance M_bind : MBind M :=
  λ A B k m w,
    match m w with
    | (Ok a, w') => k a w'
    | (Raise e, w') => (Raise e, w')
    end.

Definition raise {A} (e : exn) : M A := λ w, (Raise e, w).

(** A read of the tables: [Model.objects.filter(...)], a validation. *)
Definition query {A} (q : DB → result A) : M A := λ w, (q (db w), w).

Definition with_db (w : World) (d : DB) : World :=
  {| db := d; annotation_seq := annotation_seq w; uuid_seed := uuid_seed w |}.

(** [@transaction.atomic]: when the body raises, the rows are those at
    entry and the exception goes on to the caller. *)
Definition atomic {A} (body : M A) : M A :=
  λ w,
    match body w with
    | (Ok a, w') => (Ok a, w')
    | (Raise e, w') => (Raise e, with_db w' (db w))
    end.

Fixpoint mapM {A B} (f : A → M B) (xs : list A) : M (list B) :=
  match xs with
  | [] => mret []
  | x :: r => y ← f x; ys ← mapM f r; mret (y :: ys)
  end.

(** [Image.objects.filter(file=name).exists()] *)
Definition Image_exists (name : string) (d : DB) : bool :=
  existsb (λ i, String.eqb (image_file_name i) name) (images d).

(** [Label.objects.filter(id=id_).exists()] *)
Definition Label_exists (id_ : string) (d : DB) : bool :=
  existsb (λ l, String.eqb (label_id l) id_) (labels d).

(** Modelled from the spec: the labels that an Annotation owns,
    [annotation.labels.all()]. *)
Definition Annotation_labels (a : Annotation) (d : DB) : list Label :=
  filter (λ l, label_annotation_id l = Some (annotation_pk a)) (labels d).

(** Modelled from the spec: [Image.objects.create(file=f)] saves the file
    under its valid name, which becomes the row's identity and has to be
    new. *)
Definition Image_objects_create (stored_name : string) : M Image :=
  λ w,
    if Image_exists stored_name (db w) then
      (Raise (IntegrityError "image.file"), w)
    else
      let i := {| image_file_name := stored_name |} in
      (Ok i, with_db w {| images := images (db w) ++ [i];
                          annotations := annotations (db w);
                          labels := labels (db w) |}).

(** Modelled from the spec: [Annotation.objects.create(image_id=...)]; the
    key comes from the sequence. *)
Definition Annotation_objects_create (image_id : option Z) : M Annotation :=
  λ w,
    let a := {| annotation_pk := annotation_seq w;
                annotation_image_id := image_id |} in
    (Ok a,
     {| db := {| images := images (db w);
                 annotations := annotations (db w) ++ [a];
                 labels := labels (db w) |};
        annotation_seq := annotation_seq w + 1;
        uuid_seed := uuid_seed w |}).

Definition hex_digit (n : N) : ascii :=
  if (n <? 10)%N then ascii_of_N (48 + n) else ascii_of_N (87 + n).

Fixpoint hex (width : nat) (n : N) (acc : string) : string :=
  match width with
  | O => acc
  | S width' =>
      hex width' (n / 16)%N (String (hex_digit (n mod 16)%N) acc)
  end.

(** [str(uuid.UUID(int=n))] *)
Definition uuid_str (n : N) : string :=
  let h := hex 32 n "" in
  substring 0 8 h +:+ "-" +:+ substring 8 4 h +:+ "-" +:+
  substring 12 4 h +:+ "-" +:+ substring 16 4 h +:+ "-" +:+
  substring 20 12 h.

(** [uuid.uuid4()], the default of a Label's identifier: a draw from the
    random source. *)
Definition uuid4 : M string :=
  λ w,
    (Ok (uuid_str (uuid_seed w)),
     {| db := db w;
        annotation_seq := annotation_seq w;
        uuid_seed := uuid_seed w + 1 |}).

(** Modelled from the spec: [Label.objects.create(...)] with every column
    given; the identifier has to be new. *)
Definition Label_objects_create (l : Label) : M Label :=
  λ w,
    if Label_exists (label_id l) (db w) then
      (Raise (IntegrityError "label.id"), w)
    else
      (Ok l, with_db w {| images := images (db w);
                          annotations := annotations (db w);
                          labels := labels (db w) ++ [l] |}).

End Store.
Export Store.

(** ** [LabelSerializer] *)

Module LabelSerializer.

Definition EXPORT_FORMAT_KEY : string := "export".

(** A label payload, before and after validation: [annotation_id] and [id]
    are declared with [required=False] and may be missing. *)
Record payload : Type :=
  { annotation_id : option Z;
    id_ : option string;
    class_id : string;
    surface : list string;
    shape : json;
    meta : json }.

(** A declared field: its name, its [write_only] flag and how it renders
    the attribute of an instance. *)
Record field : Type :=
  { field_name : string;
    write_only : bool;
    field_to_representation : Label → json }.

Definition render_key (k : option Z) : json :=
  match k with Some z => JInt z | None => JNull end.

(** [Meta.fields], with [id] and [annotation_id] as the class declares
    them. *)
Definition fields : list field :=
  [ {| field_name := "annotation_id"; write_only := true;
       field_to_representation := λ l, render_key (label_annotation_id l) |};
    {| field_name := "id"; write_only := false;
       field_to_representation := λ l, JStr (label_id l) |};
    {| field_name := "class_id"; write_only := false;
       field_to_representation := λ l, JStr (label_class_id l) |};
    {| field_name := "surface"; write_only := false;
       field_to_representation := λ l, JList (map JStr (label_surface l)) |};
    {| field_name := "shape"; write_only := false;
       field_to_representation := label_shape |};
    {| field_name := "meta"; write_only := false;
       field_to_representation := label_meta |} ].

Definition Meta_fields : list string := map field_name fields.

Definition Meta_export_fields : list string := ["id"; "class_id"; "surface"].

(** [serializers.ModelSerializer.to_representation]: one entry per field
    that is not write-only, in the order of declaration. *)
Definition super_to_representation (instance : Label) : dict json :=
  map (λ f, (field_name f, field_to_representation f instance))
      (List.filter (λ f, negb (write_only f)) fields).

Record Request : Type := { query_params : gmap string string }.

(** The serializer's context, a dictionary; only the key [request] is
    read. *)
Abbreviation Context := (gmap string Request).

Definition json_str (v : json) : result string :=
  match v with
  | JStr s => Ok s
  | _ => Raise (TypeError "sequence item: expected str instance")
  end.

Fixpoint join_items (vs : list json) : result string :=
  match vs with
  | [] => Ok ""
  | v :: r => s ← json_str v; t ← join_items r; Ok (s +:+ t)
  end.

(** [''.join(v)] for a rendered value. *)
Definition join (v : json) : result string :=
  match v with
  | JList vs => join_items vs
  | JStr s => Ok s
  | _ => Raise (TypeError "can only join an iterable")
  end.

Definition to_representation (context : Context) (instance : Label)
  : result (dict json) :=
  let result := super_to_representation instance in
  match context !! "request" with
  | None => Raise (KeyError "request")
  | Some request =>
      let format_param := default "" (query_params request !! "format") in
      if String.eqb (Py.lower format_param) EXPORT_FORMAT_KEY then
        let result :=
          List.filter (λ kv, Py.contains Meta_export_fields (fst kv)) result in
        match Drf.get "surface" result with
        | None => Raise (KeyError "surface")
        | Some points =>
            joined ← join points;
            Ok (Drf.set "surface" (JStr joined) result)
        end
      else Ok result
  end.

Definition validate_id (d : DB) (id_ : string) : result string :=
  if Label_exists id_ d then
    validation_error ("Label with this id already exists: " +:+ id_)
  else Ok id_.

(** A field's [ValidationError] is filed under the field's name. *)
Definition as_field_error {A} (name : string) (r : result A) : result A :=
  match r with
  | Raise (ValidationError d) =>
      Raise (ValidationError (FieldErrors [(name, d)]))
  | _ => r
  end.

(** [run_validation]: a field that is not required and is missing is
    skipped, with its [validate_<name>] method. *)
Definition run_validation (d : DB) (data : payload) : result payload :=
  match id_ data with
  | None => Ok data
  | Some i =>
      i' ← as_field_error "id" (validate_id d i);
      Ok {| annotation_id := annotation_id data; id_ := Some i';
            class_id := class_id data; surface := surface data;
            shape := shape data; meta := meta data |}
  end.

(** The loop of [ListSerializer.to_internal_value]: the validated items
    and, per item, its errors (an empty dictionary when it has none). *)
Fixpoint many_collect (d : DB) (data : list payload)
  : result (list payload * list detail) :=
  match data with
  | [] => Ok ([], [])
  | item :: r =>
      match run_validation d item with
      | Ok v =>
          '(ret, errors) ← many_collect d r;
          Ok (v :: ret, FieldErrors [] :: errors)
      | Raise (ValidationError det) =>
          '(ret, errors) ← many_collect d r;
          Ok (ret, det :: errors)
      | Raise e => Raise e
      end
  end.

(** [LabelSerializer(data=..., many=True).is_valid(raise_exception=True)] *)
Definition many_run_validation (d : DB) (data : list payload)
  : result (list payload) :=
  '(ret, errors) ← many_collect d data;
  if existsb detail_truthy errors then
    Raise (ValidationError (ItemErrors errors))
  else Ok ret.

(** [ModelSerializer.create]: [Label.objects.create] on the validated
    columns; a missing identifier takes the column's default. *)
Definition create (validated_data : payload) : M Label :=
  i ← match id_ validated_data with
      | Some i => mret i
      | None => uuid4
      end;
  Label_objects_create
    {| label_id := i;
       label_annotation_id := annotation_id validated_data;
       label_class_id := class_id validated_data;
       label_surface := surface validated_data;
       label_shape := shape validated_data;
       label_meta := meta validated_data |}.

(** [ListSerializer.save] *)
Definition many_save (validated_data : list payload) : M (list Label) :=
  mapM create validated_data.

(** [serializer.is_valid(raise_exception=True); serializer.save()] for one
    label. *)
Definition is_valid_then_save (data : payload) : M Label :=
  validated_data ← query (λ d, run_validation d data);
  create validated_data.

End LabelSerializer.

(** ** [AnnotationSerializer] *)

Module AnnotationSerializer.

(** An annotation payload as it is handed to the serializer: both keys are
    declared with [required=False]. *)
Record payload : Type :=
  { image_id : option scalar;
    labels : option (list LabelSerializer.payload) }.

(** The same after validation. *)
Record validated : Type :=
  { validated_image_id : option Z;
    validated_labels : option (list LabelSerializer.payload) }.

(** [bool(validated_data)]: a dictionary is true when it holds a key. *)
Definition truthy (v : validated) : bool :=
  bool_decide (is_Some (validated_image_id v))
  || bool_decide (is_Some (validated_labels v)).

Record field : Type :=
  { field_name : string;
    write_only : bool;
    field_to_representation :
      LabelSerializer.Context → DB → Annotation → result json }.

Fixpoint render_labels (context : LabelSerializer.Context) (ls : list Label)
  : result (list json) :=
  match ls with
  | [] => Ok []
  | l :: r =>
      x ← LabelSerializer.to_representation context l;
      xs ← render_labels context r;
      Ok (JDict x :: xs)
  end.

(** The declared fields: [image_id] is write-only; [labels] is the list
    serializer of the labels, whose child shares the parent's context
    ([PassSerializerContextMixin]). *)
Definition fields : list field :=
  [ {| field_name := "image_id"; write_only := true;
       field_to_representation := λ _ _ a,
         Ok (LabelSerializer.render_key (annotation_image_id a)) |};
    {| field_name := "labels"; write_only := false;
       field_to_representation := λ context d a,
         JList <$> render_labels context (Annotation_labels a d) |} ].

Definition Meta_fields : list string := map field_name fields.

Fixpoint render_fields (fs : list field) (context : LabelSerializer.Context)
    (d : DB) (instance : Annotation) : result (dict json) :=
  match fs with
  | [] => Ok []
  | f :: r =>
      v ← field_to_representation f context d instance;
      vs ← render_fields r context d instance;
      Ok ((field_name f, v) :: vs)
  end.

(** [serializers.ModelSerializer.to_representation] *)
Definition to_representation (context : LabelSerializer.Context) (d : DB)
    (instance : Annotation) : result (dict json) :=
  render_fields (List.filter (λ f, negb (write_only f)) fields)
                context d instance.

(** One field of [Serializer.to_internal_value]: a [ValidationError] is
    collected under the field's name, anything else goes through. *)
Definition run_field {A} (name : string) (r : result A)
    (errors : dict detail) : result (option A * dict detail) :=
  match r with
  | Ok a => Ok (Some a, errors)
  | Raise (ValidationError det) => Ok (None, (errors ++ [(name, det)])%list)
  | Raise e => Raise e
  end.

Definition optional {A B} (f : A → result B) (v : option A)
  : result (option B) :=
  match v with
  | None => Ok None
  | Some a => Some <$> f a
  end.

(** [AnnotationSerializer(data=...).is_valid(raise_exception=True)] *)
Definition run_validation (d : DB) (data : payload) : result validated :=
  '(i, errors) ←
    run_field "image_id"
      (optional IntegerField_to_internal_value (image_id data)) [];
  '(ls, errors) ←
    run_field "labels"
      (optional (LabelSerializer.many_run_validation d) (labels data))
      errors;
  match errors with
  | [] => Ok {| validated_image_id := mjoin i;
                validated_labels := mjoin ls |}
  | _ => Raise (ValidationError (FieldErrors errors))
  end.

(** [label['annotation_id'] = annotation.id] *)
Definition with_annotation_id (pk : Z) (label : LabelSerializer.payload)
  : LabelSerializer.payload :=
  {| LabelSerializer.annotation_id := Some pk;
     LabelSerializer.id_ := LabelSerializer.id_ label;
     LabelSerializer.class_id := LabelSerializer.class_id label;
     LabelSerializer.surface := LabelSerializer.surface label;
     LabelSerializer.shape := LabelSerializer.shape label;
     LabelSerializer.meta := LabelSerializer.meta label |}.

(** The body of [create], without its decorator. *)
Definition create_body (validated_data : validated) : M Annotation :=
  let labels_data := validated_labels validated_data in
  annotation ← Annotation_objects_create (validated_image_id validated_data);
  _ ← match labels_data with
      | Some ((_ :: _) as labels_data) =>
          let labels_data :=
            map (with_annotation_id (annotation_pk annotation)) labels_data in
          validated_labels ←
            query (λ d, LabelSerializer.many_run_validation d labels_data);
          _ ← LabelSerializer.many_save validated_labels;
          mret ()
      | _ => mret ()
      end;
  mret annotation.

Definition create (validated_data : validated) : M Annotation :=
  atomic (create_body validated_data).

(** [serializer.is_valid(raise_exception=True); serializer.save()] *)
Definition is_valid_then_save (data : payload) : M Annotation :=
  validated_data ← query (λ d, run_validation d data);
  create validated_data.

End AnnotationSerializer.

(** ** [ImageSerializer] *)

Module ImageSerializer.

Definition SUPPORTED_FORMATS : list string := ["JPEG"; "PNG"; "TIFF"].

Definition FILE_MAX_SIZE : Z := 20 * 1024 * 1024.

(** An uploaded image file: its name, the format that decoding found
    ([file.image.format]) and its size in bytes. *)
Record UploadedFile : Type :=
  { name : string;
    image_format : string;
    size : Z }.

(** What a raw payload holds under a key. *)
Inductive value : Type :=
| VStr (s : string)
| VFile (f : UploadedFile)
| VAnnotation (a : AnnotationSerializer.payload)
| VList (l : list value).

Definition payload_truthy (a : AnnotationSerializer.payload) : bool :=
  bool_decide (is_Some (AnnotationSerializer.image_id a))
  || bool_decide (is_Some (AnnotationSerializer.labels a)).

(** [bool(val)] *)
Definition truthy (val : value) : bool :=
  match val with
  | VStr s => negb (String.eqb s "")
  | VFile f => negb (String.eqb (name f) "")
  | VAnnotation a => payload_truthy a
  | VList l => match l with [] => false | _ :: _ => true end
  end.

(** [val[0]] *)
Definition getitem0 (val : value) : result value :=
  match val with
  | VList (x :: _) => Ok x
  | VList [] => Raise IndexError
  | VStr (String c _) => Ok (VStr (String c ""))
  | VStr EmptyString => Raise IndexError
  | VFile _ => Raise (TypeError "object is not subscriptable")
  | VAnnotation _ => Raise (KeyError "0")
  end.

(** The loop of [to_internal_value] over the items of [dict(data)]. *)
Fixpoint unpack (data : dict value) : result (dict value) :=
  match data with
  | [] => Ok []
  | (key, val) :: r =>
      val' ← (if truthy val then getitem0 val else Ok val);
      r' ← unpack r;
      Ok ((key, val') :: r')
  end.

Definition to_representation (instance : Image) : dict json :=
  [("id", JStr (image_file_name instance))].

Definition validate_file (d : DB) (file : UploadedFile)
  : result UploadedFile :=
  let filename := get_valid_filename (name file) in
  if Image_exists filename d then
    validation_error "File already exists"
  else if negb (Py.contains SUPPORTED_FORMATS (image_format file)) then
    validation_error
      (image_format file +:+ " format is not supported. " +:+
       "Supported formats: " +:+ Py.repr_str_list SUPPORTED_FORMATS)
  else if FILE_MAX_SIZE <? size file then
    validation_error
      ("Your file is too big. Maximum size is " +:+
       Py.str_of_int FILE_MAX_SIZE +:+ " MB")
  else Ok file.

Record validated : Type :=
  { file : UploadedFile;
    annotation : option AnnotationSerializer.validated }.

(** The field [file] of the serializer: required, and the value has to be
    a file with a name and some content. *)
Definition file_field (v : option value) : result UploadedFile :=
  match v with
  | None => validation_error "No file was submitted."
  | Some (VFile f) =>
      if String.eqb (name f) "" then
        validation_error "No filename could be determined."
      else if size f =? 0 then
        validation_error "The submitted file is empty."
      else Ok f
  | Some _ =>
      validation_error
        "The submitted data was not a file. Check the encoding type on the form."
  end.

(** [type(val).__name__] *)
Definition type_name (val : value) : string :=
  match val with
  | VStr _ => "str"
  | VFile _ => "UploadedFile"
  | VAnnotation _ => "dict"
  | VList _ => "list"
  end.

(** The field [annotation]: the nested serializer, not required; a value
    that is not a dictionary is refused. *)
Definition annotation_field (d : DB) (v : option value)
  : result (option AnnotationSerializer.validated) :=
  match v with
  | None => Ok None
  | Some (VAnnotation a) => Some <$> AnnotationSerializer.run_validation d a
  | Some v =>
      Raise (ValidationError
               (FieldErrors
                  [("non_field_errors",
                    Messages ["Invalid data. Expected a dictionary, but got "
                              +:+ type_name v +:+ "."])]))
  end.

(** [serializers.ModelSerializer.to_internal_value] for the two declared
    fields, [validate_file] included. *)
Definition super_to_internal_value (d : DB) (data : dict value)
  : result validated :=
  '(f, errors) ←
    AnnotationSerializer.run_field "file"
      (f ← file_field (Drf.get "file" data); validate_file d f) [];
  '(a, errors) ←
    AnnotationSerializer.run_field "annotation"
      (annotation_field d (Drf.get "annotation" data)) errors;
  match f, errors with
  | Some f, [] => Ok {| file := f; annotation := mjoin a |}
  | _, _ => Raise (ValidationError (FieldErrors errors))
  end.

Definition to_internal_value (d : DB) (data : dict value)
  : result validated :=
  data ← unpack data;
  super_to_internal_value d data.

(** [annotation_data['image_id'] = image.file.name] *)
Definition with_image_id (image : Image)
    (annotation_data : AnnotationSerializer.validated)
  : AnnotationSerializer.payload :=
  {| AnnotationSerializer.image_id := Some (SStr (image_file_name image));
     AnnotationSerializer.labels :=
       AnnotationSerializer.validated_labels annotation_data |}.

(** The branch of [create] for an annotation payload: the image's name is
    put under [image_id], the payload is validated by a fresh
    [AnnotationSerializer] and saved. *)
Definition save_annotation (image : Image)
    (annotation_data : AnnotationSerializer.validated) : M Annotation :=
  let annotation_data := with_image_id image annotation_data in
  validated_annotation ←
    query (λ d, AnnotationSerializer.run_validation d annotation_data);
  AnnotationSerializer.create validated_annotation.

(** The body of [create], without its decorator. *)
Definition create_body (validated_data : validated) : M Image :=
  let annotation_data := annotation validated_data in
  image ← Image_objects_create
            (get_valid_filename (name (file validated_data)));
  _ ← match annotation_data with
      | Some annotation_data =>
          if AnnotationSerializer.truthy annotation_data then
            _ ← save_annotation image annotation_data; mret ()
          else mret ()
      | None => mret ()
      end;
  mret image.

Definition create (validated_data : validated) : M Image :=
  atomic (create_body validated_data).

(** [serializer.is_valid(raise_exception=True); serializer.save()] on a
    raw payload. *)
Definition is_valid_then_save (data : dict value) : M Image :=
  validated_data ← query (λ d, to_internal_value d data);
  create validated_data.

End ImageSerializer.

(** ** Sample data *)

Module Samples.

Definition empty_db : DB :=
  {| images := []; annotations := []; labels := [] |}.

Definition world0 : World :=
  {| db := empty_db; annotation_seq := 1; uuid_seed := 0 |}.

Definition label_abc : Label :=
  {| label_id := "6f1c0a52-0d1e-4a63-9c57-2f0f5b8f3a10";
     label_annotation_id := Some 1;
     label_class_id := "car";
     label_surface := ["A"; "B"; "C"];
     label_shape := JStr "polygon";
     label_meta := JDict [("source", JStr "manual")] |}.

Definition request_with (format : string) : LabelSerializer.Request :=
  {| LabelSerializer.query_params := {[ "format" := format ]} |}.

Definition request_plain : LabelSerializer.Request :=
  {| LabelSerializer.query_params := ∅ |}.

Definition context_of (r : LabelSerializer.Request)
  : LabelSerializer.Context := {[ "request" := r ]}.

Definition annotation1 : Annotation :=
  {| annotation_pk := 1; annotation_image_id := Some 5 |}.

(** A store that already holds one annotation with one label. *)
Definition db1 : DB :=
  {| images := []; annotations := [annotation1]; labels := [label_abc] |}.

Definition world1 : World :=
  {| db := db1; annotation_seq := 2; uuid_seed := 0 |}.

Definition label_payload (i : option string) : LabelSerializer.payload :=
  {| LabelSerializer.annotation_id := None;
     LabelSerializer.id_ := i;
     LabelSerializer.class_id := "car";
     LabelSerializer.surface := ["A"; "B"; "C"];
     LabelSerializer.shape := JStr "polygon";
     LabelSerializer.meta := JNull |}.

Definition image_file (n : string) (fmt : string) (sz : Z)
  : ImageSerializer.UploadedFile :=
  {| ImageSerializer.name := n;
     ImageSerializer.image_format := fmt;
     ImageSerializer.size := sz |}.

End Samples.

(** ** The failures that the specification names *)

(** The detail of the error that [validate_id] raises, filed under [id]. *)
Definition duplicate_identifier (i : string) : exn :=
  ValidationError
    (FieldErrors
       [("id", Messages ["Label with this id already exists: " +:+ i])]).

(** The three errors of [validate_file]. *)
Definition duplicate_file : exn :=
  ValidationError (Messages ["File already exists"]).

Definition unsupported_format (format : string) : exn :=
  ValidationError
    (Messages
       [format +:+
        " format is not supported. Supported formats: ['JPEG', 'PNG', 'TIFF']"]).

Definition file_too_large : exn :=
  ValidationError
    (Messages ["Your file is too big. Maximum size is 20971520 MB"]).

(** [keeps f m]: running [m] does not change the part [f] of the rows. *)
Definition keeps {A X} (f : DB → X) (m : M A) : Prop :=
  ∀ w, f (db (m w).2) = f (db w).

(** ** Notions for the properties of the writes *)

(** The identifiers that the payloads of a batch supply. *)
Definition supplied_ids (ls : list LabelSerializer.payload) : list string :=
  omap LabelSerializer.id_ ls.

(** The row that [LabelSerializer.create] writes for a payload, under the
    identifier [i]. *)
Definition label_row (i : string) (v : LabelSerializer.payload) : Label :=
  {| label_id := i;
     label_annotation_id := LabelSerializer.annotation_id v;
     label_class_id := LabelSerializer.class_id v;
     label_surface := LabelSerializer.surface v;
     label_shape := LabelSerializer.shape v;
     label_meta := LabelSerializer.meta v |}.

(** The rows of the payloads that supply their identifiers. *)
Definition payload_rows (ls : list LabelSerializer.payload) : list Label :=
  omap (λ v, i ← LabelSerializer.id_ v; Some (label_row i v)) ls.

(** The rows of a batch, once the annotation's key [pk] has been put into
    its payloads. *)
Definition batch_rows (pk : Z) (ls : list LabelSerializer.payload)
  : list Label :=
  payload_rows (map (AnnotationSerializer.with_annotation_id pk) ls).

(** [same_but_labels w w' rows]: from [w] to [w'] the table of labels grew
    by [rows], at its end, and the other tables did not change. *)
Definition same_but_labels (w w' : World) (rows : list Label) : Prop :=
  images (db w') = images (db w)
  ∧ annotations (db w') = annotations (db w)
  ∧ labels (db w') = (labels (db w) ++ rows)%list
  ∧ annotation_seq w' = annotation_seq w.

(** The two renderings of a label. *)
Definition export_view (l : Label) : dict json :=
  [("id", JStr (label_id l));
   ("class_id", JStr (label_class_id l));
   ("surface", JStr (Py.join "" (label_surface l)))].

Definition full_view (l : Label) : dict json :=
  [("id", JStr (label_id l));
   ("class_id", JStr (label_class_id l));
   ("surface", JList (map JStr (label_surface l)));
   ("shape", label_shape l);
   ("meta", label_meta l)].

(** * Properties *)

Import Samples.

(** ** Strings and dictionaries *)

Lemma append_empty_r (s : string) : s +:+ "" = s.
Proof.
  induction s as [|c s IH]; [done|].
  change (String c (s +:+ "") = String c s). by rewrite IH.
Qed.

Lemma length_append (s t : string) :
  String.length (s +:+ t) = (String.length s + String.length t)%nat.
Proof.
  induction s as [|c s IH]; [done|].
  change (S (String.length (s +:+ t)) = S (String.length s + String.length t)).
  by rewrite IH.
Qed.

Lemma join_items_strs (l : list string) :
  LabelSerializer.join_items (map JStr l) = Ok (Py.join "" l).
Proof.
  induction l as [|x l IH]; [done|].
  cbn [map LabelSerializer.join_items]. rewrite IH. cbn.
  destruct l as [|y l]; cbn; [by rewrite append_empty_r | done].
Qed.

Lemma Label_exists_spec (i : string) (d : DB) :
  Label_exists i d = true ↔ ∃ l, In l (labels d) ∧ label_id l = i.
Proof.
  unfold Label_exists. rewrite existsb_exists.
  split; intros (l & Hl & E); exists l; split; try done.
  - by apply String.eqb_eq.
  - by apply String.eqb_eq.
Qed.

Lemma Image_exists_spec (n : string) (d : DB) :
  Image_exists n d = true ↔ In {| image_file_name := n |} (images d).
Proof.
  unfold Image_exists. rewrite existsb_exists. split.
  - intros ([m] & Hm & E). apply String.eqb_eq in E. cbn in E. by subst.
  - intros H. eexists; split; [exact H|]. apply String.eqb_refl.
Qed.

(** ** Rendering a label *)

(** C10. Rendering a label reads [context['request']] before anything
    depends on the mode: with a context that has no request the rendering
    raises [KeyError], whatever the label. *)
Theorem label_rendering_needs_request
    (context : LabelSerializer.Context) (instance : Label) :
  context !! "request" = None →
  LabelSerializer.to_representation context instance
  = Raise (KeyError "request").
Proof.
  intros H. unfold LabelSerializer.to_representation. by rewrite H.
Qed.

Lemma label_rendering_needs_request_witness :
  (∅ : LabelSerializer.Context) !! "request" = None
  ∧ LabelSerializer.to_representation ∅ label_abc = Raise (KeyError "request").
Proof.
  split; [reflexivity|].
  apply label_rendering_needs_request. reflexivity.
Defined.

(** C4, as the code has it. With a request in the context: when the query
    parameter [format], lowered, is [export], the rendering is exactly
    [id], [class_id] and [surface], the surface being its points joined
    with no separator; for any other value, or none, the rendering is every
    declared field but the write-only [annotation_id], that is [id],
    [class_id], [surface], [shape] and [meta], the surface being the
    sequence of its points. *)
Theorem label_rendering_modes
    (context : LabelSerializer.Context) (request : LabelSerializer.Request)
    (instance : Label) :
  context !! "request" = Some request →
  let format_param :=
    default "" (LabelSerializer.query_params request !! "format") in
  (Py.lower format_param = "export" →
   LabelSerializer.to_representation context instance
   = Ok [("id", JStr (label_id instance));
         ("class_id", JStr (label_class_id instance));
         ("surface", JStr (Py.join "" (label_surface instance)))])
  ∧ (Py.lower format_param ≠ "export" →
     LabelSerializer.to_representation context instance
     = Ok [("id", JStr (label_id instance));
           ("class_id", JStr (label_class_id instance));
           ("surface", JList (map JStr (label_surface instance)));
           ("shape", label_shape instance);
           ("meta", label_meta instance)]).
Proof.
  intros Hreq format_param.
  unfold LabelSerializer.to_representation, LabelSerializer.EXPORT_FORMAT_KEY.
  rewrite Hreq. fold format_param. split; intros Hfmt.
  - rewrite Hfmt. cbn. by rewrite join_items_strs.
  - apply String.eqb_neq in Hfmt. by rewrite Hfmt.
Qed.

Lemma label_rendering_modes_witness :
  LabelSerializer.to_representation
    (context_of (request_with "Export")) label_abc
  = Ok [("id", JStr "6f1c0a52-0d1e-4a63-9c57-2f0f5b8f3a10");
        ("class_id", JStr "car");
        ("surface", JStr "ABC")]
  ∧ LabelSerializer.to_representation (context_of request_plain) label_abc
    = Ok [("id", JStr "6f1c0a52-0d1e-4a63-9c57-2f0f5b8f3a10");
          ("class_id", JStr "car");
          ("surface", JList [JStr "A"; JStr "B"; JStr "C"]);
          ("shape", JStr "polygon");
          ("meta", JDict [("source", JStr "manual")])].
Proof.
  split.
  - apply (label_rendering_modes (context_of (request_with "Export"))
             (request_with "Export") label_abc); reflexivity.
  - apply (label_rendering_modes (context_of request_plain)
             request_plain label_abc); [reflexivity | discriminate].
Defined.

(** C4 as written fails on the full rendering: [annotation_id] is one of
    the declared fields ([Meta.fields]) and the rendering of a label without
    the parameter does not have it. *)
Lemma label_full_rendering_is_not_all_declared_fields :
  LabelSerializer.Meta_fields
  = ["annotation_id"; "id"; "class_id"; "surface"; "shape"; "meta"]
  ∧ keys <$> LabelSerializer.to_representation (context_of request_plain) label_abc
    = Ok ["id"; "class_id"; "surface"; "shape"; "meta"]
  ∧ keys <$> LabelSerializer.to_representation (context_of request_plain) label_abc
    ≠ Ok LabelSerializer.Meta_fields.
Proof. repeat split; [reflexivity..|discriminate]. Qed.

(** ** Validating a label *)

Lemma label_run_validation_some (d : DB) (data : LabelSerializer.payload)
    (i : string) :
  LabelSerializer.id_ data = Some i →
  LabelSerializer.run_validation d data
  = if Label_exists i d then Raise (duplicate_identifier i) else Ok data.
Proof.
  intros Hi. unfold LabelSerializer.run_validation, LabelSerializer.validate_id.
  rewrite Hi. destruct (Label_exists i d); [done|].
  destruct data; cbn in *. by subst.
Qed.

Lemma label_run_validation_none (d : DB) (data : LabelSerializer.payload) :
  LabelSerializer.id_ data = None →
  LabelSerializer.run_validation d data = Ok data.
Proof. intros Hi. unfold LabelSerializer.run_validation. by rewrite Hi. Qed.

(** C7. For a payload that supplies an identifier, validation raises the
    duplicate-identifier error exactly when the table of labels holds a row
    with that identifier, and then validating and saving leaves the store as
    it was; when no row has it, validation accepts the payload as it is.  A
    payload without identifier is accepted whatever the table holds. *)
Theorem label_duplicate_identifier (w : World) (data : LabelSerializer.payload) :
  (∀ i, LabelSerializer.id_ data = Some i →
     ((∃ l, In l (labels (db w)) ∧ label_id l = i)
      ↔ LabelSerializer.run_validation (db w) data
        = Raise (duplicate_identifier i))
     ∧ ((∃ l, In l (labels (db w)) ∧ label_id l = i) →
        LabelSerializer.is_valid_then_save data w
        = (Raise (duplicate_identifier i), w))
     ∧ (¬ (∃ l, In l (labels (db w)) ∧ label_id l = i) →
        LabelSerializer.run_validation (db w) data = Ok data))
  ∧ (LabelSerializer.id_ data = None →
     LabelSerializer.run_validation (db w) data = Ok data).
Proof.
  split; [|apply label_run_validation_none].
  intros i Hi. rewrite <- Label_exists_spec.
  pose proof (label_run_validation_some (db w) data i Hi) as Hrun.
  destruct (Label_exists i (db w)) eqn:Hex; rewrite Hrun.
  - repeat split; try done.
    intros _. unfold LabelSerializer.is_valid_then_save, query, mbind, M_bind.
    by rewrite Hrun.
  - repeat split; done.
Qed.

Lemma label_duplicate_identifier_witness :
  LabelSerializer.is_valid_then_save (label_payload (Some (label_id label_abc))) world1
  = (Raise (duplicate_identifier (label_id label_abc)), world1)
  ∧ LabelSerializer.run_validation (db world1) (label_payload None)
    = Ok (label_payload None).
Proof.
  split.
  - apply (label_duplicate_identifier world1
             (label_payload (Some (label_id label_abc)))); [reflexivity|].
    exists label_abc. split; [left|]; reflexivity.
  - apply (label_duplicate_identifier world1 (label_payload None)).
    reflexivity.
Defined.

(** ** Validating the uploaded file *)

Lemma contains_spec (xs : list string) (x : string) :
  Py.contains xs x = true ↔ In x xs.
Proof.
  unfold Py.contains. rewrite existsb_exists. split.
  - intros (y & Hy & E). apply String.eqb_eq in E. by subst.
  - intros H. exists x. split; [done | apply String.eqb_refl].
Qed.

Lemma validate_file_unfold (d : DB) (file : ImageSerializer.UploadedFile) :
  ImageSerializer.validate_file d file
  = if Image_exists (get_valid_filename (ImageSerializer.name file)) d then
      Raise duplicate_file
    else if Py.contains ImageSerializer.SUPPORTED_FORMATS
              (ImageSerializer.image_format file) then
      if 20 * 1024 * 1024 <? ImageSerializer.size file then
        Raise file_too_large
      else Ok file
    else Raise (unsupported_format (ImageSerializer.image_format file)).
Proof.
  unfold ImageSerializer.validate_file.
  destruct (Image_exists _ d); [done|].
  destruct (Py.contains _ _); [|done].
  change ImageSerializer.FILE_MAX_SIZE with (20 * 1024 * 1024).
  by destruct (_ <? _).
Qed.

Lemma unsupported_format_distinct (format : string) :
  unsupported_format format ≠ duplicate_file
  ∧ unsupported_format format ≠ file_too_large.
Proof.
  split; intros [= E]; apply (f_equal String.length) in E;
    rewrite length_append in E; cbn in E; lia.
Qed.

(** The checks decide on the normalized name, the decoded format and the
    size, in this order. *)
Lemma validate_file_cases (d : DB) (file : ImageSerializer.UploadedFile) :
  let filename := get_valid_filename (ImageSerializer.name file) in
  let format := ImageSerializer.image_format file in
  (In {| image_file_name := filename |} (images d) →
   ImageSerializer.validate_file d file = Raise duplicate_file)
  ∧ (¬ In {| image_file_name := filename |} (images d) →
     ¬ In format ["JPEG"; "PNG"; "TIFF"] →
     ImageSerializer.validate_file d file = Raise (unsupported_format format))
  ∧ (¬ In {| image_file_name := filename |} (images d) →
     In format ["JPEG"; "PNG"; "TIFF"] →
     20 * 1024 * 1024 < ImageSerializer.size file →
     ImageSerializer.validate_file d file = Raise file_too_large)
  ∧ (¬ In {| image_file_name := filename |} (images d) →
     In format ["JPEG"; "PNG"; "TIFF"] →
     ImageSerializer.size file ≤ 20 * 1024 * 1024 →
     ImageSerializer.validate_file d file = Ok file).
Proof.
  intros filename format. rewrite validate_file_unfold.
  fold filename format.
  rewrite <- Image_exists_spec.
  change ["JPEG"; "PNG"; "TIFF"] with ImageSerializer.SUPPORTED_FORMATS.
  rewrite <- contains_spec.
  destruct (Image_exists filename d), (Py.contains _ format);
    repeat split; intros; try done.
  - destruct (Z.ltb_spec (20 * 1024 * 1024) (ImageSerializer.size file));
      [done | lia].
  - destruct (Z.ltb_spec (20 * 1024 * 1024) (ImageSerializer.size file));
      [lia | done].
Qed.

(** ** The unit of work *)

Lemma bind_run {A B} (m : M A) (k : A → M B) (w : World) :
  (m ≫= k) w
  = match m w with
    | (Ok a, w') => k a w'
    | (Raise e, w') => (Raise e, w')
    end.
Proof. reflexivity. Qed.

(** A failed atomic block leaves the rows as they were at entry. *)
Lemma atomic_raise {A} (body : M A) (w w' : World) (e : exn) :
  atomic body w = (Raise e, w') → db w' = db w.
Proof.
  unfold atomic. destruct (body w) as [[a|e'] w'']; intros [= <- <-]; done.
Qed.

Lemma atomic_body_raise {A} (body : M A) (w w' : World) (e : exn) :
  body w = (Raise e, w') →
  atomic body w = (Raise e, with_db w' (db w)).
Proof. intros H. unfold atomic. by rewrite H. Qed.

Lemma atomic_body_ok {A} (body : M A) (w w' : World) (a : A) :
  body w = (Ok a, w') → atomic body w = (Ok a, w').
Proof. intros H. unfold atomic. by rewrite H. Qed.

Section keeps.
Context {X : Type} (f : DB → X).

Lemma keeps_ret {A} (a : A) : keeps f (mret a).
Proof. by intros w. Qed.

Lemma keeps_raise {A} (e : exn) : keeps f (raise (A:=A) e).
Proof. by intros w. Qed.

Lemma keeps_query {A} (q : DB → result A) : keeps f (query q).
Proof. by intros w. Qed.

Lemma keeps_bind {A B} (m : M A) (k : A → M B) :
  keeps f m → (∀ a, keeps f (k a)) → keeps f (m ≫= k).
Proof.
  intros Hm Hk w. rewrite bind_run. specialize (Hm w).
  destruct (m w) as [[a|e] w']; cbn in *; [|done].
  by rewrite Hk.
Qed.

Lemma keeps_atomic {A} (m : M A) : keeps f m → keeps f (atomic m).
Proof.
  intros Hm w. unfold atomic. specialize (Hm w).
  by destruct (m w) as [[a|e] w'].
Qed.

Lemma keeps_mapM {A B} (g : A → M B) (xs : list A) :
  (∀ x, keeps f (g x)) → keeps f (mapM g xs).
Proof.
  intros Hg. induction xs as [|x xs IH]; cbn [mapM].
  - apply keeps_ret.
  - apply keeps_bind; [apply Hg|]. intros y.
    apply keeps_bind; [apply IH|]. intros ys. apply keeps_ret.
Qed.

Lemma keeps_uuid4 : keeps f uuid4.
Proof. by intros w. Qed.
End keeps.

Create HintDb keeps.
#[export] Hint Resolve keeps_ret keeps_raise keeps_query keeps_atomic
  keeps_uuid4 : keeps.

Lemma keeps_images_label_create (l : Label) :
  keeps images (Label_objects_create l).
Proof. intros w. unfold Label_objects_create. by destruct (Label_exists _ _). Qed.

Lemma keeps_annotations_label_create (l : Label) :
  keeps annotations (Label_objects_create l).
Proof. intros w. unfold Label_objects_create. by destruct (Label_exists _ _). Qed.

Lemma keeps_images_annotation_create (i : option Z) :
  keeps images (Annotation_objects_create i).
Proof. by intros w. Qed.

Lemma keeps_labels_annotation_create (i : option Z) :
  keeps labels (Annotation_objects_create i).
Proof. by intros w. Qed.

#[export] Hint Resolve keeps_images_label_create keeps_annotations_label_create
  keeps_images_annotation_create keeps_labels_annotation_create : keeps.

Ltac keeps_step :=
  first [ solve [auto with keeps]
        | apply keeps_bind; [|intros ?]
        | apply keeps_mapM; intros ? ].

Lemma keeps_images_label_serializer_create (v : LabelSerializer.payload) :
  keeps images (LabelSerializer.create v).
Proof.
  unfold LabelSerializer.create. destruct (LabelSerializer.id_ v);
    repeat keeps_step.
Qed.

#[export] Hint Resolve keeps_images_label_serializer_create : keeps.

Lemma keeps_images_annotation_serializer_create
    (v : AnnotationSerializer.validated) :
  keeps images (AnnotationSerializer.create v).
Proof.
  unfold AnnotationSerializer.create, AnnotationSerializer.create_body.
  apply keeps_atomic.
  destruct (AnnotationSerializer.validated_labels v) as [[|x r]|];
    repeat keeps_step.
Qed.

#[export] Hint Resolve keeps_images_annotation_serializer_create : keeps.

Lemma keeps_images_save_annotation (image : Image)
    (a : AnnotationSerializer.validated) :
  keeps images (ImageSerializer.save_annotation image a).
Proof.
  unfold ImageSerializer.save_annotation. repeat keeps_step.
Qed.

(** ** Creating an image *)

(** The part of [ImageSerializer.create] that follows the insertion of the
    image row. *)
Lemma image_create_body_run (validated_data : ImageSerializer.validated)
    (w : World) :
  let stored :=
    get_valid_filename (ImageSerializer.name (ImageSerializer.file validated_data)) in
  ImageSerializer.create_body validated_data w
  = match Image_objects_create stored w with
    | (Ok image, w1) =>
        match ImageSerializer.annotation validated_data with
        | Some annotation_data =>
            if AnnotationSerializer.truthy annotation_data then
              match ImageSerializer.save_annotation image annotation_data w1 with
              | (Ok _, w2) => (Ok image, w2)
              | (Raise e, w2) => (Raise e, w2)
              end
            else (Ok image, w1)
        | None => (Ok image, w1)
        end
    | (Raise e, w1) => (Raise e, w1)
    end.
Proof.
  intros stored. unfold ImageSerializer.create_body. rewrite bind_run.
  fold stored. destruct (Image_objects_create stored w) as [[image|e] w1];
    [|done].
  rewrite bind_run.
  destruct (ImageSerializer.annotation validated_data) as [a|]; [|done].
  destruct (AnnotationSerializer.truthy a); [|done].
  rewrite bind_run.
  by destruct (ImageSerializer.save_annotation image a w1) as [[x|e] w2].
Qed.

Lemma Image_objects_create_ok (stored : string) (w w1 : World) (image : Image) :
  Image_objects_create stored w = (Ok image, w1) →
  image_file_name image = stored
  ∧ Image_exists stored (db w) = false
  ∧ images (db w1) = (images (db w) ++ [image])%list
  ∧ annotations (db w1) = annotations (db w)
  ∧ labels (db w1) = labels (db w).
Proof.
  unfold Image_objects_create.
  destruct (Image_exists stored (db w)); [done|].
  intros [= <- <-]. done.
Qed.

(** A successful create has stored the image under the valid form of the
    uploaded name, at the end of the table. *)
Lemma image_create_ok (validated_data : ImageSerializer.validated)
    (w w' : World) (image : Image) :
  ImageSerializer.create validated_data w = (Ok image, w') →
  image_file_name image
  = get_valid_filename (ImageSerializer.name (ImageSerializer.file validated_data))
  ∧ images (db w') = (images (db w) ++ [image])%list.
Proof.
  unfold ImageSerializer.create, atomic.
  rewrite image_create_body_run. cbv zeta.
  destruct (Image_objects_create _ w) as [[i|e] w1] eqn:Hi; [|done].
  apply Image_objects_create_ok in Hi as (Hname & _ & Himages & _).
  destruct (ImageSerializer.annotation validated_data) as [a|];
    [destruct (AnnotationSerializer.truthy a)|].
  - pose proof (keeps_images_save_annotation i a w1) as Hkeep.
    destruct (ImageSerializer.save_annotation i a w1) as [[x|e] w2];
      intros [= <- <-]; cbn in Hkeep. by rewrite Hkeep.
  - by intros [= <- <-].
  - by intros [= <- <-].
Qed.

(** A payload that validation rejects is not saved: the world is the one at
    entry. *)
Lemma image_invalid_payload_writes_nothing (data : dict ImageSerializer.value)
    (w : World) (e : exn) :
  ImageSerializer.to_internal_value (db w) data = Raise e →
  ImageSerializer.is_valid_then_save data w = (Raise e, w).
Proof.
  intros H. unfold ImageSerializer.is_valid_then_save, query.
  rewrite bind_run. by rewrite H.
Qed.

(** A multipart payload that holds only the file. *)
Lemma file_only_payload_rejected (d : DB) (file : ImageSerializer.UploadedFile)
    (e : exn) :
  ImageSerializer.validate_file d file = Raise e →
  ∃ e', ImageSerializer.to_internal_value d
          [("file", ImageSerializer.VList [ImageSerializer.VFile file])]
        = Raise e'.
Proof.
  intros H. unfold ImageSerializer.to_internal_value. cbn.
  unfold ImageSerializer.super_to_internal_value. cbn.
  destruct (String.eqb (ImageSerializer.name file) ""); [by eexists|].
  destruct (ImageSerializer.size file =? 0); [by eexists|].
  cbn. rewrite H. destruct e; by eexists.
Qed.

(** C5. [validate_file] makes three checks in this order.  It raises the
    duplicate-file error when an image is stored under the valid form of the
    uploaded name, whatever the format and the size; otherwise the
    unsupported-format error, whose message starts with the decoded format
    and ends with the list of the supported ones, when the format is none of
    JPEG, PNG, TIFF, whatever the size; otherwise the size check decides.
    The three errors differ.  After an image has been created, a file whose
    name has the same valid form is rejected as a duplicate, the upload of
    that file alone fails, and the first image is still in the table. *)
Theorem file_validation_order (d : DB) (file : ImageSerializer.UploadedFile) :
  let filename := get_valid_filename (ImageSerializer.name file) in
  let format := ImageSerializer.image_format file in
  (In {| image_file_name := filename |} (images d) →
   ImageSerializer.validate_file d file = Raise duplicate_file)
  ∧ (¬ In {| image_file_name := filename |} (images d) →
     ¬ In format ["JPEG"; "PNG"; "TIFF"] →
     ImageSerializer.validate_file d file = Raise (unsupported_format format))
  ∧ (¬ In {| image_file_name := filename |} (images d) →
     In format ["JPEG"; "PNG"; "TIFF"] →
     20 * 1024 * 1024 < ImageSerializer.size file →
     ImageSerializer.validate_file d file = Raise file_too_large)
  ∧ (¬ In {| image_file_name := filename |} (images d) →
     In format ["JPEG"; "PNG"; "TIFF"] →
     ImageSerializer.size file ≤ 20 * 1024 * 1024 →
     ImageSerializer.validate_file d file = Ok file)
  ∧ (unsupported_format format ≠ duplicate_file
     ∧ unsupported_format format ≠ file_too_large
     ∧ duplicate_file ≠ file_too_large)
  ∧ (∀ (first : ImageSerializer.validated) (w w1 : World) (image : Image),
       ImageSerializer.create first w = (Ok image, w1) →
       filename
       = get_valid_filename (ImageSerializer.name (ImageSerializer.file first)) →
       ImageSerializer.validate_file (db w1) file = Raise duplicate_file
       ∧ (∃ e, ImageSerializer.is_valid_then_save
                 [("file", ImageSerializer.VList [ImageSerializer.VFile file])] w1
               = (Raise e, w1))
       ∧ In image (images (db w1))).
Proof.
  intros filename format.
  destruct (validate_file_cases d file) as (H1 & H2 & H3 & H4).
  destruct (unsupported_format_distinct format) as [D1 D2].
  repeat (split; [assumption|]). split; [done|].
  intros first w w1 image Hcreate Hname.
  apply image_create_ok in Hcreate as [Hstored Himages].
  assert (In image (images (db w1))) as Hin.
  { rewrite Himages. apply in_or_app. right. by left. }
  assert (ImageSerializer.validate_file (db w1) file = Raise duplicate_file)
    as Hdup.
  { apply validate_file_cases. fold filename. rewrite Hname, <- Hstored.
    by destruct image. }
  repeat split; try done.
  destruct (file_only_payload_rejected _ _ _ Hdup) as [e He].
  exists e. by apply image_invalid_payload_writes_nothing.
Qed.

Lemma file_validation_order_witness :
  ImageSerializer.validate_file empty_db (image_file "scan.gif" "GIF" 30000000)
  = Raise (unsupported_format "GIF")
  ∧ ImageSerializer.validate_file
      {| images := [{| image_file_name := "my_cat.png" |}];
         annotations := []; labels := [] |}
      (image_file "my cat.png" "GIF" 30000000)
    = Raise duplicate_file.
Proof.
  split.
  - apply (file_validation_order empty_db (image_file "scan.gif" "GIF" 30000000)).
    + intros [].
    + cbn. intros [H|[H|[H|[]]]]; discriminate H.
  - apply (file_validation_order
             {| images := [{| image_file_name := "my_cat.png" |}];
                annotations := []; labels := [] |}
             (image_file "my cat.png" "GIF" 30000000)).
    left. reflexivity.
Defined.

(** C6. For a file that passes the duplicate and the format checks,
    [validate_file] raises the too-large error exactly when the size is
    above 20 * 1024 * 1024 bytes, and returns the file exactly when the size
    is at most that: the limit itself is accepted. *)
Theorem file_size_boundary (d : DB) (file : ImageSerializer.UploadedFile) :
  ¬ In {| image_file_name := get_valid_filename (ImageSerializer.name file) |}
       (images d) →
  In (ImageSerializer.image_format file) ["JPEG"; "PNG"; "TIFF"] →
  (ImageSerializer.validate_file d file = Raise file_too_large
   ↔ 20 * 1024 * 1024 < ImageSerializer.size file)
  ∧ (ImageSerializer.validate_file d file = Ok file
     ↔ ImageSerializer.size file ≤ 20 * 1024 * 1024)
  ∧ ImageSerializer.FILE_MAX_SIZE = 20 * 1024 * 1024.
Proof.
  intros Hnew Hfmt.
  destruct (validate_file_cases d file) as (_ & _ & Hbig & Hok).
  specialize (Hbig Hnew Hfmt). specialize (Hok Hnew Hfmt).
  destruct (Z.le_gt_cases (ImageSerializer.size file) (20 * 1024 * 1024))
    as [Hle|Hgt].
  - rewrite (Hok Hle). repeat split; try done; intros; lia.
  - rewrite (Hbig Hgt). repeat split; try done; intros; lia.
Qed.

Lemma file_size_boundary_witness :
  ImageSerializer.validate_file empty_db
    (image_file "scan.png" "PNG" (20 * 1024 * 1024))
  = Ok (image_file "scan.png" "PNG" (20 * 1024 * 1024))
  ∧ ImageSerializer.validate_file empty_db
      (image_file "scan.png" "PNG" (20 * 1024 * 1024 + 1))
    = Raise file_too_large.
Proof.
  split.
  - apply (file_size_boundary empty_db
             (image_file "scan.png" "PNG" (20 * 1024 * 1024)));
      [intros [] | right; left; reflexivity | cbn; lia].
  - apply (file_size_boundary empty_db
             (image_file "scan.png" "PNG" (20 * 1024 * 1024 + 1)));
      [intros [] | right; left; reflexivity | cbn; lia].
Defined.

(** ** Validating and saving a batch of labels *)

Lemma label_run_validation_cases (d : DB) (label : LabelSerializer.payload) :
  match LabelSerializer.id_ label with
  | Some i =>
      if Label_exists i d then
        LabelSerializer.run_validation d label = Raise (duplicate_identifier i)
      else LabelSerializer.run_validation d label = Ok label
  | None => LabelSerializer.run_validation d label = Ok label
  end.
Proof.
  destruct (LabelSerializer.id_ label) as [i|] eqn:Hi.
  - rewrite (label_run_validation_some d label i Hi).
    by destruct (Label_exists i d).
  - by apply label_run_validation_none.
Qed.

(** The loop over the batch always ends, and the errors it collects have a
    non-empty entry for every rejected item. *)
Lemma many_collect_total (d : DB) (data : list LabelSerializer.payload) :
  ∃ ret errors,
    LabelSerializer.many_collect d data = Ok (ret, errors)
    ∧ ((∃ label e, In label data
                   ∧ LabelSerializer.run_validation d label = Raise e) →
       existsb detail_truthy errors = true).
Proof.
  induction data as [|x r (ret & errors & Hr & Hbad)].
  { exists [], []. split; [done|]. by intros (? & ? & [] & _). }
  cbn [LabelSerializer.many_collect]. rewrite Hr.
  pose proof (label_run_validation_cases d x) as Hx.
  destruct (LabelSerializer.id_ x) as [i|];
    [destruct (Label_exists i d)|]; rewrite Hx; cbn.
  - eexists _, _. split; done.
  - eexists _, _. split; [done|].
    intros (l & e & [->|Hin] & Hl); [congruence|]. apply Hbad. eauto.
  - eexists _, _. split; [done|].
    intros (l & e & [->|Hin] & Hl); [congruence|]. apply Hbad. eauto.
Qed.

(** The batch is rejected as soon as one of its items is. *)
Lemma many_run_validation_rejects (d : DB) (data : list LabelSerializer.payload)
    (label : LabelSerializer.payload) (e : exn) :
  In label data →
  LabelSerializer.run_validation d label = Raise e →
  ∃ errors,
    LabelSerializer.many_run_validation d data
    = Raise (ValidationError (ItemErrors errors)).
Proof.
  intros Hin Hbad. unfold LabelSerializer.many_run_validation.
  destruct (many_collect_total d data) as (ret & errors & -> & Hex).
  cbn. rewrite Hex by eauto. by eexists.
Qed.

(** Putting the annotation's key into a label payload does not change the
    outcome of its validation, and neither does a change of the store that
    leaves the table of labels alone. *)
Lemma label_run_validation_with_annotation_id (d d' : DB) (pk : Z)
    (label : LabelSerializer.payload) (e : exn) :
  labels d' = labels d →
  LabelSerializer.run_validation d label = Raise e →
  LabelSerializer.run_validation d'
    (AnnotationSerializer.with_annotation_id pk label) = Raise e.
Proof.
  intros Hl.
  pose proof (label_run_validation_cases d label) as H.
  pose proof (label_run_validation_cases d'
                (AnnotationSerializer.with_annotation_id pk label)) as H'.
  cbn in H'. unfold Label_exists in *. rewrite Hl in H'.
  destruct (LabelSerializer.id_ label) as [i|];
    [destruct (existsb _ _)|]; congruence.
Qed.

(** ** Creating an annotation *)

(** C2. When one label of the batch is rejected by its validation (a
    duplicate identifier is the one rejection there is), [create] raises a
    [ValidationError] that lists the items' errors, and the rows are those
    at entry: neither the annotation nor any label of the call is in the
    store. *)
Theorem annotation_create_all_or_nothing
    (validated_data : AnnotationSerializer.validated)
    (labels_data : list LabelSerializer.payload)
    (label : LabelSerializer.payload) (e : exn) (w : World) :
  AnnotationSerializer.validated_labels validated_data = Some labels_data →
  In label labels_data →
  LabelSerializer.run_validation (db w) label = Raise e →
  ∃ errors w',
    AnnotationSerializer.create validated_data w
    = (Raise (ValidationError (ItemErrors errors)), w')
    ∧ db w' = db w.
Proof.
  intros Hlabels Hin Hbad.
  unfold AnnotationSerializer.create.
  set (pk := annotation_seq w).
  set (w1 := (Annotation_objects_create
                (AnnotationSerializer.validated_image_id validated_data) w).2).
  destruct (many_run_validation_rejects (db w1)
              (map (AnnotationSerializer.with_annotation_id pk) labels_data)
              (AnnotationSerializer.with_annotation_id pk label) e)
    as [errors Herr].
  { by apply in_map. }
  { by apply (label_run_validation_with_annotation_id (db w)). }
  exists errors, (with_db w1 (db w)). split; [|done].
  apply atomic_body_raise.
  unfold AnnotationSerializer.create_body. rewrite Hlabels, bind_run.
  change (Annotation_objects_create _ w)
    with (Ok {| annotation_pk := pk;
                annotation_image_id :=
                  AnnotationSerializer.validated_image_id validated_data |},
          w1).
  cbn iota. destruct labels_data as [|x r]; [done|].
  rewrite !bind_run. unfold query at 1. cbn [annotation_pk].
  by rewrite Herr.
Qed.

Lemma annotation_create_all_or_nothing_witness :
  ∃ errors w',
    AnnotationSerializer.create
      {| AnnotationSerializer.validated_image_id := Some 5;
         AnnotationSerializer.validated_labels :=
           Some [label_payload None;
                 label_payload (Some (label_id label_abc))] |}
      world1
    = (Raise (ValidationError (ItemErrors errors)), w')
    ∧ db w' = db world1.
Proof.
  apply (annotation_create_all_or_nothing _
           [label_payload None; label_payload (Some (label_id label_abc))]
           (label_payload (Some (label_id label_abc)))
           (duplicate_identifier (label_id label_abc)));
    [reflexivity | right; left; reflexivity | reflexivity].
Defined.

(** Without the decorator the annotation row would stay behind: the body of
    [create] has written it when the labels are rejected. *)
Example annotation_create_body_leaves_the_row :
  annotations
    (db (AnnotationSerializer.create_body
           {| AnnotationSerializer.validated_image_id := Some 5;
              AnnotationSerializer.validated_labels :=
                Some [label_payload None;
                      label_payload (Some (label_id label_abc))] |}
           world1).2)
  = [annotation1; {| annotation_pk := 2; annotation_image_id := Some 5 |}].
Proof. reflexivity. Qed.

(** Two labels of one batch with the same new identifier pass validation;
    the second insertion breaks the uniqueness of the identifier and the
    rows are restored as well. *)
Example annotation_create_twins :
  AnnotationSerializer.create
    {| AnnotationSerializer.validated_image_id := Some 5;
       AnnotationSerializer.validated_labels :=
         Some [label_payload (Some "twin"); label_payload (Some "twin")] |}
    world1
  = (Raise (IntegrityError "label.id"),
     {| db := db1; annotation_seq := 3; uuid_seed := 0 |}).
Proof. reflexivity. Qed.

(** ** An image with its annotation *)

(** Whatever makes [ImageSerializer.create] raise, the rows are those at
    entry. *)
Lemma image_create_raise (validated_data : ImageSerializer.validated)
    (w w' : World) (e : exn) :
  ImageSerializer.create validated_data w = (Raise e, w') → db w' = db w.
Proof. apply atomic_raise. Qed.

(** C1. When the payload has an annotation and, after the image row has
    been written, the creation of the annotation raises (at the validation of
    the payload, labels included, or at the insertions), [create] raises the
    same exception and the rows are those at entry: the image row that the
    call had written is not in the store, and neither is any annotation or
    label of the call. *)
Theorem image_create_rolls_back
    (validated_data : ImageSerializer.validated)
    (annotation_data : AnnotationSerializer.validated)
    (image : Image) (w w1 w2 : World) (e : exn) :
  ImageSerializer.annotation validated_data = Some annotation_data →
  AnnotationSerializer.truthy annotation_data = true →
  Image_objects_create
    (get_valid_filename
       (ImageSerializer.name (ImageSerializer.file validated_data))) w
  = (Ok image, w1) →
  ImageSerializer.save_annotation image annotation_data w1 = (Raise e, w2) →
  In image (images (db w1))
  ∧ ∃ w', ImageSerializer.create validated_data w = (Raise e, w')
          ∧ db w' = db w
          ∧ ¬ In image (images (db w')).
Proof.
  intros Hann Htruthy Himage Hsave.
  pose proof (Image_objects_create_ok _ _ _ _ Himage)
    as (Hname & Hnew & Himages & _).
  split.
  { rewrite Himages. apply in_or_app. right. by left. }
  exists (with_db w2 (db w)). split; [|split; [done|]].
  - apply atomic_body_raise. rewrite image_create_body_run. cbv zeta.
    by rewrite Himage, Hann, Htruthy, Hsave.
  - cbn. intros Hin. destruct image as [n]. cbn in Hname. subst n.
    apply Image_exists_spec in Hin. congruence.
Qed.

Lemma image_create_rolls_back_witness :
  ∃ w', ImageSerializer.create
          {| ImageSerializer.file := image_file "123" "PNG" 1024;
             ImageSerializer.annotation :=
               Some {| AnnotationSerializer.validated_image_id := None;
                       AnnotationSerializer.validated_labels :=
                         Some [label_payload None;
                               label_payload (Some (label_id label_abc))] |} |}
          world1
        = (Raise
             (ValidationError
                (FieldErrors
                   [("labels",
                     ItemErrors
                       [FieldErrors [];
                        FieldErrors
                          [("id",
                            Messages
                              ["Label with this id already exists: 6f1c0a52-0d1e-4a63-9c57-2f0f5b8f3a10"])]])])),
           w')
        ∧ db w' = db world1
        ∧ ¬ In {| image_file_name := "123" |} (images (db w')).
Proof.
  eapply (image_create_rolls_back
            {| ImageSerializer.file := image_file "123" "PNG" 1024;
               ImageSerializer.annotation :=
                 Some {| AnnotationSerializer.validated_image_id := None;
                         AnnotationSerializer.validated_labels :=
                           Some [label_payload None;
                                 label_payload (Some (label_id label_abc))] |} |});
    reflexivity.
Defined.

(** Without the decorator the image row would stay behind. *)
Example image_create_body_leaves_the_row :
  images
    (db (ImageSerializer.create_body
           {| ImageSerializer.file := image_file "123" "PNG" 1024;
              ImageSerializer.annotation :=
                Some {| AnnotationSerializer.validated_image_id := None;
                        AnnotationSerializer.validated_labels :=
                          Some [label_payload None;
                                label_payload (Some (label_id label_abc))] |} |}
           world1).2)
  = [{| image_file_name := "123" |}].
Proof. reflexivity. Qed.

(** The validation of an annotation payload either accepts it or raises a
    [ValidationError] keyed by field; an [image_id] that [IntegerField]
    rejects is the first entry of that error. *)
Lemma annotation_run_validation_image_id (d : DB)
    (data : AnnotationSerializer.payload) (v : scalar) (det : detail) :
  AnnotationSerializer.image_id data = Some v →
  IntegerField_to_internal_value v = Raise (ValidationError det) →
  ∃ rest,
    AnnotationSerializer.run_validation d data
    = Raise (ValidationError (FieldErrors (("image_id", det) :: rest))).
Proof.
  intros Hid Hint. unfold AnnotationSerializer.run_validation.
  rewrite Hid. cbn. rewrite Hint. cbn.
  destruct (AnnotationSerializer.labels data) as [ls|]; cbn; [|by eexists].
  unfold LabelSerializer.many_run_validation.
  destruct (many_collect_total d ls) as (ret & errors & -> & _). cbn.
  destruct (existsb detail_truthy errors); cbn; by eexists.
Qed.

(** An image whose stored name [IntegerField] does not read as an integer
    cannot be created together with an annotation, whatever the store and
    the labels. *)
Lemma image_create_needs_integer_name
    (validated_data : ImageSerializer.validated)
    (annotation_data : AnnotationSerializer.validated)
    (det : detail) (w : World) :
  ImageSerializer.annotation validated_data = Some annotation_data →
  AnnotationSerializer.truthy annotation_data = true →
  IntegerField_to_internal_value
    (SStr (get_valid_filename
             (ImageSerializer.name (ImageSerializer.file validated_data))))
  = Raise (ValidationError det) →
  ∃ e w', ImageSerializer.create validated_data w = (Raise e, w')
          ∧ db w' = db w.
Proof.
  intros Hann Htruthy Hint.
  destruct (ImageSerializer.create validated_data w) as [[image|e] w'] eqn:Hc;
    [|by eauto using image_create_raise].
  exfalso. revert Hc. unfold ImageSerializer.create, atomic.
  rewrite image_create_body_run. cbv zeta.
  destruct (Image_objects_create _ w) as [[i|e] w1] eqn:Hi; [|done].
  apply Image_objects_create_ok in Hi as (Hname & _).
  rewrite Hann, Htruthy.
  unfold ImageSerializer.save_annotation. rewrite bind_run. unfold query.
  destruct (annotation_run_validation_image_id (db w1)
              (ImageSerializer.with_image_id i annotation_data)
              (SStr (image_file_name i)) det) as [rest ->]; [done| |done].
  by rewrite Hname.
Qed.

(** ** File names and [IntegerField] *)

Lemma letter_is_plain (c : ascii) :
  Py.is_letter c = true →
  Py.is_digit c = false ∧ Py.is_space c = false
  ∧ Ascii.eqb c "_" = false ∧ Ascii.eqb c "-" = false
  ∧ Ascii.eqb c "+" = false ∧ Ascii.eqb c "." = false
  ∧ Ascii.eqb c "0" = false ∧ Ascii.eqb c " " = false
  ∧ is_filename_char c = true.
Proof.
  destruct c as [[] [] [] [] [] [] [] []]; vm_compute; intros H;
    repeat split; congruence.
Qed.

Lemma has_letter_not_all_space (s : string) :
  Py.has_letter s = true → Py.all_space s = false.
Proof.
  induction s as [|c s IH]; [done|]. cbn.
  destruct (Py.is_letter c) eqn:Hc; cbn.
  - intros _. apply letter_is_plain in Hc as (_ & -> & _). done.
  - intros H. rewrite (IH H). apply andb_false_r.
Qed.

Lemma has_letter_lstrip (s : string) :
  Py.has_letter s = true → Py.has_letter (Py.lstrip s) = true.
Proof.
  induction s as [|c s IH]; [done|]. cbn.
  destruct (Py.is_space c) eqn:Hs; [|done].
  destruct (Py.is_letter c) eqn:Hc; [|done].
  apply letter_is_plain in Hc as (_ & Hc & _). congruence.
Qed.

Lemma has_letter_rstrip (s : string) :
  Py.has_letter s = true → Py.has_letter (Py.rstrip s) = true.
Proof.
  induction s as [|c s IH]; [done|]. intros H.
  cbn [Py.rstrip]. rewrite (has_letter_not_all_space _ H).
  cbn in *. destruct (Py.is_letter c); [done|]. by apply IH.
Qed.

Lemma has_letter_strip (s : string) :
  Py.has_letter s = true → Py.has_letter (Py.strip s) = true.
Proof. intros H. by apply has_letter_rstrip, has_letter_lstrip. Qed.

Lemma has_letter_int_digits (s : string) (acc : Z) (after_digit : bool) :
  Py.has_letter s = true → Py.int_digits acc after_digit s = None.
Proof.
  revert acc after_digit. induction s as [|c s IH]; [done|].
  intros acc after_digit. cbn.
  destruct (Py.is_letter c) eqn:Hc; cbn.
  - intros _. apply letter_is_plain in Hc as (-> & _ & -> & _). done.
  - intros H. destruct (Py.is_digit c); [by apply IH|].
    destruct (Ascii.eqb c "_"); [|done].
    destruct after_digit; [by apply IH | done].
Qed.

(** [int] raises [ValueError] on a string that holds a letter. *)
Lemma has_letter_int (s : string) :
  Py.has_letter s = true → Py.int s = None.
Proof.
  intros H. apply has_letter_strip in H. unfold Py.int.
  destruct (Py.strip s) as [|c r]; [done|].
  destruct (Ascii.eqb c "-") eqn:Hminus.
  { apply Ascii.eqb_eq in Hminus as ->. cbn in H.
    by rewrite (has_letter_int_digits r 0 false H). }
  destruct (Ascii.eqb c "+") eqn:Hplus.
  { apply Ascii.eqb_eq in Hplus as ->. cbn in H.
    by rewrite (has_letter_int_digits r 0 false H). }
  by apply has_letter_int_digits.
Qed.

Lemma zeros_then_space_no_letter (s : string) :
  zeros_then_space s = true → Py.has_letter s = false.
Proof.
  induction s as [|c s IH]; [done|]. cbn [zeros_then_space].
  destruct (Ascii.eqb c "0") eqn:H0.
  - intros H. cbn. rewrite (IH H).
    apply Ascii.eqb_eq in H0 as ->. done.
  - intros H. destruct (Py.has_letter (String c s)) eqn:Hl; [|done].
    apply has_letter_not_all_space in Hl. congruence.
Qed.

Lemma has_letter_re_decimal_sub (s : string) :
  Py.has_letter s = true → Py.has_letter (re_decimal_sub s) = true.
Proof.
  induction s as [|c s IH]; [done|]. cbn.
  destruct (Ascii.eqb c "." && zeros_then_space s) eqn:Hm.
  - apply andb_true_iff in Hm as [Hdot Hz].
    apply Ascii.eqb_eq in Hdot as ->.
    by rewrite (zeros_then_space_no_letter _ Hz).
  - cbn. destruct (Py.is_letter c); [done|]. apply IH.
Qed.

(** [IntegerField] rejects every string that holds a letter. *)
Lemma IntegerField_rejects_letters (s : string) :
  Py.has_letter s = true →
  ∃ msg,
    IntegerField_to_internal_value (SStr s)
    = Raise (ValidationError (Messages [msg])).
Proof.
  intros H. unfold IntegerField_to_internal_value.
  destruct (MAX_STRING_LENGTH <? Py.len s); [by eexists|].
  rewrite (has_letter_int _ (has_letter_re_decimal_sub _ H)). by eexists.
Qed.

Lemma has_letter_filter_chars (s : string) :
  Py.has_letter s = true →
  Py.has_letter (Py.filter_chars is_filename_char s) = true.
Proof.
  induction s as [|c s IH]; [done|]. cbn.
  destruct (Py.is_letter c) eqn:Hc; cbn.
  - intros _. pose proof (letter_is_plain c Hc) as H.
    destruct H as (_ & _ & _ & _ & _ & _ & _ & _ & ->). cbn. by rewrite Hc.
  - intros H. destruct (is_filename_char c); cbn; rewrite ?Hc; by apply IH.
Qed.

Lemma has_letter_replace_blank (s : string) :
  Py.has_letter s = true →
  Py.has_letter (Py.replace_char " " "_" s) = true.
Proof.
  induction s as [|c s IH]; [done|]. cbn.
  destruct (Py.is_letter c) eqn:Hc; cbn.
  - intros _. pose proof (letter_is_plain c Hc) as H.
    destruct H as (_ & _ & _ & _ & _ & _ & _ & -> & _). by rewrite Hc.
  - intros H. rewrite (IH H). apply orb_true_r.
Qed.

(** The valid form of a name keeps its letters. *)
Lemma has_letter_get_valid_filename (name : string) :
  Py.has_letter name = true → Py.has_letter (get_valid_filename name) = true.
Proof.
  intros H. unfold get_valid_filename.
  by apply has_letter_filter_chars, has_letter_replace_blank, has_letter_strip.
Qed.

(** Whatever the store, an image whose file name holds a letter (a name with
    an extension does) cannot be created together with an annotation. *)
Lemma image_create_with_annotation_fails_for_lettered_names
    (validated_data : ImageSerializer.validated)
    (annotation_data : AnnotationSerializer.validated) (w : World) :
  ImageSerializer.annotation validated_data = Some annotation_data →
  AnnotationSerializer.truthy annotation_data = true →
  Py.has_letter (ImageSerializer.name (ImageSerializer.file validated_data))
  = true →
  ∃ e w', ImageSerializer.create validated_data w = (Raise e, w')
          ∧ db w' = db w.
Proof.
  intros Hann Htruthy Hletter.
  destruct (IntegerField_rejects_letters _
              (has_letter_get_valid_filename _ Hletter)) as [msg Hmsg].
  by eapply image_create_needs_integer_name.
Qed.

(** C3 on a file named [cat.png]: the payload passes validation, the image
    row is written, the name goes under [image_id], and the annotation
    serializer rejects it because [image_id] is declared an [IntegerField];
    the create fails and nothing of it is left in the store. *)
Theorem image_create_with_annotation_fails_for_cat_png :
  let annotation_payload :=
    {| AnnotationSerializer.image_id := None;
       AnnotationSerializer.labels := Some [label_payload None] |} in
  let annotation_data :=
    {| AnnotationSerializer.validated_image_id := None;
       AnnotationSerializer.validated_labels := Some [label_payload None] |} in
  let data :=
    [("file",
      ImageSerializer.VList
        [ImageSerializer.VFile (image_file "cat.png" "PNG" 1024)]);
     ("annotation",
      ImageSerializer.VList [ImageSerializer.VAnnotation annotation_payload])] in
  let validated_data :=
    {| ImageSerializer.file := image_file "cat.png" "PNG" 1024;
       ImageSerializer.annotation := Some annotation_data |} in
  let rejected :=
    ValidationError
      (FieldErrors [("image_id", Messages ["A valid integer is required."])]) in
  ImageSerializer.to_internal_value (db world0) data = Ok validated_data
  ∧ ImageSerializer.with_image_id {| image_file_name := "cat.png" |}
      annotation_data
    = {| AnnotationSerializer.image_id := Some (SStr "cat.png");
         AnnotationSerializer.labels := Some [label_payload None] |}
  ∧ ImageSerializer.create validated_data world0 = (Raise rejected, world0)
  ∧ ImageSerializer.is_valid_then_save data world0 = (Raise rejected, world0).
Proof. repeat split. Qed.

(** ** Rendering an annotation *)

(** With a request in the context a label always renders. *)
Lemma label_rendering_total (context : LabelSerializer.Context)
    (request : LabelSerializer.Request) (instance : Label) :
  context !! "request" = Some request →
  ∃ r, LabelSerializer.to_representation context instance = Ok r.
Proof.
  intros Hreq. unfold LabelSerializer.to_representation. rewrite Hreq.
  destruct (String.eqb _ _); [|by eexists].
  cbn. rewrite join_items_strs. by eexists.
Qed.

Lemma render_labels_total (context : LabelSerializer.Context)
    (request : LabelSerializer.Request) (ls : list Label) :
  context !! "request" = Some request →
  ∃ items, AnnotationSerializer.render_labels context ls = Ok items
           ∧ length items = length ls.
Proof.
  intros Hreq. induction ls as [|l ls (items & Hitems & Hlen)].
  - by exists [].
  - destruct (label_rendering_total context request l Hreq) as [x Hx].
    exists (JDict x :: items). cbn. rewrite Hx. cbn. rewrite Hitems. cbn.
    by rewrite Hlen.
Qed.

Lemma annotation_to_representation_unfold (context : LabelSerializer.Context)
    (d : DB) (instance : Annotation) :
  AnnotationSerializer.to_representation context d instance
  = match AnnotationSerializer.render_labels context
            (Annotation_labels instance d) with
    | Ok items => Ok [("labels", JList items)]
    | Raise e => Raise e
    end.
Proof.
  unfold AnnotationSerializer.to_representation. cbn.
  by destruct (AnnotationSerializer.render_labels _ _).
Qed.

(** C8, as the code has it. [image_id] is declared write-only and [labels]
    is not: a rendered annotation never has the key [image_id] and always
    has the key [labels], its only key, which holds the rendering of each of
    the annotation's labels; with a request in the context the rendering
    succeeds. *)
Theorem annotation_rendering_keys (context : LabelSerializer.Context)
    (d : DB) (instance : Annotation) :
  (∀ r, AnnotationSerializer.to_representation context d instance = Ok r →
        keys r = ["labels"] ∧ ¬ In "image_id" (keys r))
  ∧ (∀ request, context !! "request" = Some request →
       ∃ items,
         AnnotationSerializer.to_representation context d instance
         = Ok [("labels", JList items)]
         ∧ length items = length (Annotation_labels instance d)).
Proof.
  rewrite annotation_to_representation_unfold. split.
  - intros r. destruct (AnnotationSerializer.render_labels _ _); [|done].
    intros [= <-]. split; [done|]. cbn. intros [H|[]]. discriminate H.
  - intros request Hreq.
    destruct (render_labels_total context request
                (Annotation_labels instance d) Hreq) as (items & -> & Hlen).
    by exists items.
Qed.

Lemma annotation_rendering_keys_witness :
  ∃ items,
    AnnotationSerializer.to_representation (context_of request_plain) db1
      annotation1
    = Ok [("labels", JList items)]
    ∧ length items = length (Annotation_labels annotation1 db1).
Proof.
  apply (proj2 (annotation_rendering_keys (context_of request_plain) db1
                  annotation1) request_plain).
  reflexivity.
Defined.

(** C8 as written fails: the rendering of a stored annotation has the key
    [labels]. *)
Lemma annotation_rendering_has_labels :
  AnnotationSerializer.to_representation (context_of request_plain) db1
    annotation1
  = Ok [("labels",
         JList
           [JDict
              [("id", JStr "6f1c0a52-0d1e-4a63-9c57-2f0f5b8f3a10");
               ("class_id", JStr "car");
               ("surface", JList [JStr "A"; JStr "B"; JStr "C"]);
               ("shape", JStr "polygon");
               ("meta", JDict [("source", JStr "manual")])]])]
  ∧ ¬ (∀ context d instance r,
         AnnotationSerializer.to_representation context d instance = Ok r →
         ¬ In "image_id" (keys r) ∧ ¬ In "labels" (keys r)).
Proof.
  split; [reflexivity|].
  intros H.
  destruct (H (context_of request_plain) db1 annotation1 _ eq_refl) as [_ Hl].
  apply Hl. by left.
Qed.

(** ** Unpacking a multipart payload *)

Lemma get_cons {V} (key k : string) (v : V) (r : dict V) :
  Drf.get key ((k, v) :: r)
  = if String.eqb k key then Some v else Drf.get key r.
Proof. reflexivity. Qed.

(** C9. When every value of the raw payload is a list (the shape that
    [dict(data)] gives to a multipart payload), the loop of
    [to_internal_value] succeeds, keeps the keys, puts under every key whose
    list is not empty the first element of that list (for a one-element list,
    the element it wraps), leaves an empty list as it is, adds no key, and
    what goes on to the fields' validation is the unpacked payload. *)
Theorem multipart_unpack (data : dict ImageSerializer.value) :
  (∀ key val, In (key, val) data → ∃ l, val = ImageSerializer.VList l) →
  ∃ data',
    ImageSerializer.unpack data = Ok data'
    ∧ keys data' = keys data
    ∧ (∀ key x rest,
         Drf.get key data = Some (ImageSerializer.VList (x :: rest)) →
         Drf.get key data' = Some x)
    ∧ (∀ key, Drf.get key data = Some (ImageSerializer.VList []) →
              Drf.get key data' = Some (ImageSerializer.VList []))
    ∧ (∀ key, Drf.get key data = None → Drf.get key data' = None)
    ∧ (∀ d, ImageSerializer.to_internal_value d data
            = ImageSerializer.super_to_internal_value d data').
Proof.
  intros Hshape.
  assert (∃ data',
            ImageSerializer.unpack data = Ok data'
            ∧ keys data' = keys data
            ∧ (∀ key x rest,
                 Drf.get key data = Some (ImageSerializer.VList (x :: rest)) →
                 Drf.get key data' = Some x)
            ∧ (∀ key, Drf.get key data = Some (ImageSerializer.VList []) →
                      Drf.get key data' = Some (ImageSerializer.VList []))
            ∧ (∀ key, Drf.get key data = None → Drf.get key data' = None))
    as (data' & Hrun & Hrest).
  { induction data as [|[k v] r IH]; [by exists []|].
    destruct IH as (r' & Hr & Hkeys & Hsome & Hempty & Hnone).
    { intros key val Hin. apply (Hshape key val). by right. }
    destruct (Hshape k v) as [l ->]; [by left|].
    exists ((k, match l with x :: _ => x | [] => ImageSerializer.VList [] end)
            :: r').
    split; [|split; [|repeat split]].
    - cbn [ImageSerializer.unpack]. rewrite Hr. by destruct l.
    - unfold keys in *. cbn. by rewrite Hkeys.
    - intros key x rest. rewrite !get_cons.
      destruct (String.eqb k key); [|apply Hsome]. by intros [= ->].
    - intros key. rewrite !get_cons.
      destruct (String.eqb k key); [|apply Hempty]. by intros [= ->].
    - intros key. rewrite !get_cons.
      destruct (String.eqb k key); [done|apply Hnone]. }
  exists data'. split; [done|].
  destruct Hrest as (? & ? & ? & ?). repeat split; try done.
  intros d. unfold ImageSerializer.to_internal_value. by rewrite Hrun.
Qed.

Lemma multipart_unpack_witness :
  ∃ data',
    ImageSerializer.unpack
      [("file",
        ImageSerializer.VList
          [ImageSerializer.VFile (image_file "cat.png" "PNG" 1024)]);
       ("annotation", ImageSerializer.VList [])]
    = Ok data'
    ∧ keys data' = ["file"; "annotation"].
Proof.
  destruct (multipart_unpack
              [("file",
                ImageSerializer.VList
                  [ImageSerializer.VFile (image_file "cat.png" "PNG" 1024)]);
               ("annotation", ImageSerializer.VList [])])
    as (data' & Hrun & Hkeys & _).
  - intros key val [[= <- <-]|[[= <- <-]|[]]]; by eexists.
  - exists data'. by split.
Defined.

(** A payload whose values are not wrapped does not get through the loop:
    the annotation, a dictionary, has no key [0]. *)
Example unpack_unwrapped_annotation :
  ImageSerializer.unpack
    [("annotation",
      ImageSerializer.VAnnotation
        {| AnnotationSerializer.image_id := None;
           AnnotationSerializer.labels := Some [label_payload None] |})]
  = Raise (KeyError "0").
Proof. reflexivity. Qed.

(** ** Two uploads under one valid name *)

(** [my cat.png] is stored as [my_cat.png]; the upload of [my_cat.png] that
    follows is refused and the store still holds the first image alone. *)
Example second_upload_same_valid_name :
  let first :=
    [("file",
      ImageSerializer.VList
        [ImageSerializer.VFile (image_file "my cat.png" "PNG" 1024)])] in
  let second :=
    [("file",
      ImageSerializer.VList
        [ImageSerializer.VFile (image_file "my_cat.png" "JPEG" 2048)])] in
  let w1 := (ImageSerializer.is_valid_then_save first world0).2 in
  images (db w1) = [{| image_file_name := "my_cat.png" |}]
  ∧ ImageSerializer.is_valid_then_save second w1
    = (Raise (ValidationError (FieldErrors [("file", Messages ["File already exists"])])),
       w1).
Proof. split; reflexivity. Qed.

(** * More on the serializers *)

(** ** Saving labels *)

Lemma label_create_supplied (v : LabelSerializer.payload) (i : string)
    (w : World) :
  LabelSerializer.id_ v = Some i →
  LabelSerializer.create v w = Label_objects_create (label_row i v) w.
Proof. intros Hi. unfold LabelSerializer.create. by rewrite Hi. Qed.

(** The one failure of [LabelSerializer.create] is the uniqueness of the
    identifier, and it leaves the rows alone. *)
Lemma label_create_raise (v : LabelSerializer.payload) (w w' : World)
    (e : exn) :
  LabelSerializer.create v w = (Raise e, w') →
  e = IntegrityError "label.id" ∧ db w' = db w.
Proof.
  unfold LabelSerializer.create. rewrite bind_run.
  destruct (LabelSerializer.id_ v) as [i|]; cbn;
    unfold Label_objects_create; cbn;
    destruct (Label_exists _ _); intros [= <- <-]; done.
Qed.

Lemma label_create_ok (v : LabelSerializer.payload) (w w' : World)
    (l : Label) :
  LabelSerializer.create v w = (Ok l, w') →
  same_but_labels w w' [l]
  ∧ Label_exists (label_id l) (db w) = false
  ∧ l = label_row (label_id l) v
  ∧ (∀ i, LabelSerializer.id_ v = Some i → label_id l = i).
Proof.
  unfold LabelSerializer.create. rewrite bind_run.
  destruct (LabelSerializer.id_ v) as [i|]; cbn;
    unfold Label_objects_create; cbn;
    destruct (Label_exists _ _) eqn:Hex; intros [= <- <-];
    repeat split; try done.
  - by intros ? [= ->].
Qed.

Lemma Label_exists_app (i : string) (d d' : DB) (rows : list Label) :
  labels d' = (labels d ++ rows)%list →
  Label_exists i d'
  = Label_exists i d || existsb (λ l, String.eqb (label_id l) i) rows.
Proof. intros H. unfold Label_exists. by rewrite H, existsb_app. Qed.

Lemma same_but_labels_refl (w : World) : same_but_labels w w [].
Proof. repeat split. by rewrite app_nil_r. Qed.

Lemma same_but_labels_trans (w w1 w2 : World) (rows rows' : list Label) :
  same_but_labels w w1 rows → same_but_labels w1 w2 rows' →
  same_but_labels w w2 (rows ++ rows').
Proof.
  intros (Hi & Ha & Hl & Hs) (Hi' & Ha' & Hl' & Hs').
  repeat split; try congruence. by rewrite Hl', Hl, app_assoc.
Qed.

(** What a successful [ListSerializer.save] has done: one row per payload,
    in order, at the end of the table, each with the columns of its payload
    and the identifier that the payload supplies. *)
Lemma many_save_ok (ls : list LabelSerializer.payload) (w w' : World)
    (rows : list Label) :
  LabelSerializer.many_save ls w = (Ok rows, w') →
  same_but_labels w w' rows
  ∧ Forall2 (λ v l, l = label_row (label_id l) v
                    ∧ ∀ i, LabelSerializer.id_ v = Some i → label_id l = i)
            ls rows.
Proof.
  unfold LabelSerializer.many_save. revert w rows.
  induction ls as [|v ls IH]; intros w rows; cbn [mapM].
  - intros [= <- <-]. split; [apply same_but_labels_refl | constructor].
  - rewrite bind_run.
    destruct (LabelSerializer.create v w) as [[l|e] w1] eqn:Hc; [|done].
    rewrite bind_run.
    destruct (mapM LabelSerializer.create ls w1) as [[ys|e] w2] eqn:Hr;
      [|done].
    intros [= <- <-].
    apply label_create_ok in Hc as (H1 & _ & Hrow & Hid).
    destruct (IH _ _ Hr) as [H2 HF].
    split; [apply (same_but_labels_trans _ _ _ [l] ys H1 H2)|].
    by constructor.
Qed.

(** A failed [ListSerializer.save] failed on the uniqueness of an
    identifier. *)
Lemma many_save_raise (ls : list LabelSerializer.payload) (w w' : World)
    (e : exn) :
  LabelSerializer.many_save ls w = (Raise e, w') →
  e = IntegrityError "label.id".
Proof.
  unfold LabelSerializer.many_save. revert w.
  induction ls as [|v ls IH]; intros w; cbn [mapM]; [done|].
  rewrite bind_run.
  destruct (LabelSerializer.create v w) as [[l|e'] w1] eqn:Hc.
  - rewrite bind_run.
    destruct (mapM LabelSerializer.create ls w1) as [[ys|e'] w2] eqn:Hr;
      [done|].
    intros [= <- <-]. by eapply IH.
  - intros [= <- <-]. by apply label_create_raise in Hc as [-> _].
Qed.

Lemma supplied_ids_cons (v : LabelSerializer.payload)
    (ls : list LabelSerializer.payload) :
  supplied_ids (v :: ls)
  = match LabelSerializer.id_ v with
    | Some i => i :: supplied_ids ls
    | None => supplied_ids ls
    end.
Proof. unfold supplied_ids. cbn. by destruct (LabelSerializer.id_ v). Qed.

Lemma Label_exists_grows (i : string) (w w' : World) (rows : list Label) :
  same_but_labels w w' rows →
  Label_exists i (db w) = true → Label_exists i (db w') = true.
Proof.
  intros (_ & _ & Hl & _) H. rewrite (Label_exists_app i _ _ _ Hl), H. done.
Qed.

(** A batch whose payloads all supply an identifier, the identifiers being
    distinct and new, is saved whole. *)
Lemma many_save_supplied (ls : list LabelSerializer.payload) (w : World) :
  Forall (λ v, is_Some (LabelSerializer.id_ v)) ls →
  NoDup (supplied_ids ls) →
  (∀ i, In i (supplied_ids ls) → Label_exists i (db w) = false) →
  ∃ w', LabelSerializer.many_save ls w = (Ok (payload_rows ls), w').
Proof.
  unfold LabelSerializer.many_save. revert w.
  induction ls as [|v ls IH]; intros w Hall Hnodup Hnew; [by eexists|].
  apply Forall_cons in Hall as [[i Hi] Hall].
  rewrite supplied_ids_cons, Hi in Hnodup, Hnew.
  apply NoDup_cons in Hnodup as [Hfresh Hnodup].
  cbn [mapM]. rewrite bind_run, (label_create_supplied v i w Hi).
  unfold Label_objects_create. cbn [label_id label_row].
  rewrite (Hnew i) by by left.
  destruct (IH (with_db w
                  {| images := images (db w);
                     annotations := annotations (db w);
                     labels := labels (db w) ++ [label_row i v] |})
              Hall Hnodup) as [w' Hw'].
  { intros j Hj. unfold Label_exists. cbn. rewrite existsb_app. cbn.
    fold (Label_exists j (db w)). rewrite (Hnew j) by by right.
    rewrite orb_false_r. cbn. apply String.eqb_neq. intros ->.
    apply Hfresh. by apply list_elem_of_In. }
  exists w'. rewrite bind_run, Hw'. cbn.
  unfold payload_rows. cbn. by rewrite Hi.
Qed.

(** A batch in which an identifier comes twice, or is already that of a
    stored label, is not saved: an insertion breaks the uniqueness of the
    identifier. *)
Lemma many_save_collision (ls : list LabelSerializer.payload) (w : World) :
  ¬ NoDup (supplied_ids ls)
  ∨ (∃ i, In i (supplied_ids ls) ∧ Label_exists i (db w) = true) →
  ∃ w', LabelSerializer.many_save ls w
        = (Raise (IntegrityError "label.id"), w').
Proof.
  unfold LabelSerializer.many_save. revert w.
  induction ls as [|v ls IH]; intros w Hbad.
  { destruct Hbad as [H|(i & [] & _)]. destruct H. constructor. }
  cbn [mapM]. rewrite bind_run.
  destruct (LabelSerializer.create v w) as [[l|e] w1] eqn:Hc.
  2:{ apply label_create_raise in Hc as [-> _]. by eexists. }
  apply label_create_ok in Hc as (Hgrow & Hnew & _ & Hid).
  destruct (IH w1) as [w' Hw']; [|exists w'; by rewrite bind_run, Hw'].
  rewrite supplied_ids_cons in Hbad.
  destruct (LabelSerializer.id_ v) as [i|].
  - specialize (Hid i eq_refl). subst i.
    assert (Label_exists (label_id l) (db w1) = true) as Hnow.
    { destruct Hgrow as (_ & _ & Hl & _).
      rewrite (Label_exists_app _ _ _ _ Hl). cbn.
      rewrite String.eqb_refl. apply orb_true_r. }
    destruct Hbad as [Hdup|(j & [<-|Hj] & Hex)].
    + destruct (decide (label_id l ∈ supplied_ids ls)) as [Hin|Hout].
      * right. exists (label_id l). split; [by apply list_elem_of_In|done].
      * left. intros Hnd. apply Hdup. by apply NoDup_cons.
    + congruence.
    + right. exists j. split; [done|]. by eapply Label_exists_grows.
  - destruct Hbad as [Hdup|(j & Hj & Hex)]; [by left|].
    right. exists j. split; [done|]. by eapply Label_exists_grows.
Qed.

(** ** Validating a batch of labels *)

Lemma many_collect_accepts (d : DB) (data : list LabelSerializer.payload) :
  (∀ label, In label data → LabelSerializer.run_validation d label = Ok label) →
  LabelSerializer.many_collect d data
  = Ok (data, map (λ _, FieldErrors []) data).
Proof.
  induction data as [|x r IH]; intros Hok; [done|].
  cbn [LabelSerializer.many_collect].
  rewrite (Hok x) by by left. rewrite IH; [done|].
  intros label Hin. apply Hok. by right.
Qed.

Lemma label_accepted_iff (d : DB) (label : LabelSerializer.payload) :
  LabelSerializer.run_validation d label = Ok label
  ↔ ∀ i, LabelSerializer.id_ label = Some i → Label_exists i d = false.
Proof.
  pose proof (label_run_validation_cases d label) as H.
  destruct (LabelSerializer.id_ label) as [i|];
    [destruct (Label_exists i d) eqn:Hex|]; rewrite H; split; try done.
  - intros Hi. specialize (Hi i eq_refl). congruence.
  - by intros _ ? [= <-].
Qed.

Lemma label_rejected_or_accepted (d : DB) (label : LabelSerializer.payload) :
  LabelSerializer.run_validation d label = Ok label
  ∨ ∃ e, LabelSerializer.run_validation d label = Raise e.
Proof.
  pose proof (label_run_validation_cases d label) as H.
  destruct (LabelSerializer.id_ label) as [i|];
    [destruct (Label_exists i d)|]; eauto.
Qed.
Lemma supplied_ids_with_annotation_id (pk : Z)
    (ls : list LabelSerializer.payload) :
  supplied_ids (map (AnnotationSerializer.with_annotation_id pk) ls)
  = supplied_ids ls.
Proof.
  unfold supplied_ids. induction ls as [|v ls IH]; [done|].
  cbn. by rewrite IH.
Qed.

Lemma supplied_ids_In (ls : list LabelSerializer.payload) (i : string) :
  In i (supplied_ids ls)
  ↔ ∃ label, In label ls ∧ LabelSerializer.id_ label = Some i.
Proof.
  unfold supplied_ids. rewrite <- list_elem_of_In, list_elem_of_omap.
  by setoid_rewrite list_elem_of_In.
Qed.


Lemma many_run_validation_accepts (d : DB)
    (data : list LabelSerializer.payload) :
  (∀ i, In i (supplied_ids data) → Label_exists i d = false) →
  LabelSerializer.many_run_validation d data = Ok data.
Proof.
  intros Hnew. unfold LabelSerializer.many_run_validation.
  rewrite many_collect_accepts.
  - cbn. replace (existsb _ _) with false; [done|].
    clear. by induction data.
  - intros label Hin. apply label_accepted_iff. intros i Hi.
    apply Hnew, supplied_ids_In. eauto.
Qed.

Lemma many_run_validation_ok (d : DB) (data ret : list LabelSerializer.payload) :
  LabelSerializer.many_run_validation d data = Ok ret →
  ret = data ∧ ∀ i, In i (supplied_ids data) → Label_exists i d = false.
Proof.
  intros Hret.
  assert (∀ i, In i (supplied_ids data) → Label_exists i d = false) as Hnew.
  { intros i (label & Hin & Hi)%supplied_ids_In.
    destruct (label_rejected_or_accepted d label) as [Hok|[e He]].
    - by apply (label_accepted_iff d label).
    - destruct (many_run_validation_rejects d data label e Hin He) as [? H].
      congruence. }
  split; [|done]. rewrite (many_run_validation_accepts _ _ Hnew) in Hret.
  congruence.
Qed.

(** X1. The validation of a batch looks each supplied identifier up in the
    store and nowhere else: the batch is accepted, and returned as it is,
    exactly when no supplied identifier is that of a stored label.  Two
    payloads of one batch that supply the same new identifier are accepted. *)
Theorem batch_validation_reads_the_store_only (d : DB)
    (data : list LabelSerializer.payload) :
  ((∀ label i, In label data → LabelSerializer.id_ label = Some i →
               ¬ ∃ l, In l (labels d) ∧ label_id l = i) →
   LabelSerializer.many_run_validation d data = Ok data)
  ∧ (∀ ret, LabelSerializer.many_run_validation d data = Ok ret →
            ret = data
            ∧ ∀ label i, In label data → LabelSerializer.id_ label = Some i →
                         ¬ ∃ l, In l (labels d) ∧ label_id l = i).
Proof.
  split.
  - intros Hnew. apply many_run_validation_accepts.
    intros i (label & Hin & Hi)%supplied_ids_In.
    specialize (Hnew label i Hin Hi). rewrite <- Label_exists_spec in Hnew.
    by destruct (Label_exists i d).
  - intros ret [-> Hnew]%many_run_validation_ok. split; [done|].
    intros label i Hin Hi. rewrite <- Label_exists_spec.
    rewrite (Hnew i); [done|]. apply supplied_ids_In. eauto.
Qed.

Lemma batch_validation_reads_the_store_only_witness :
  LabelSerializer.many_run_validation db1
    [label_payload (Some "twin"); label_payload (Some "twin")]
  = Ok [label_payload (Some "twin"); label_payload (Some "twin")].
Proof.
  apply (batch_validation_reads_the_store_only db1
           [label_payload (Some "twin"); label_payload (Some "twin")]).
  intros label i [<-|[<-|[]]] [= <-] (l & [<-|[]] & [=]).
Defined.

(** ** Creating an annotation, continued *)

Lemma annotation_create_body_run
    (validated_data : AnnotationSerializer.validated) (w : World) :
  let annotation :=
    {| annotation_pk := annotation_seq w;
       annotation_image_id :=
         AnnotationSerializer.validated_image_id validated_data |} in
  let w1 :=
    {| db := {| images := images (db w);
                annotations := annotations (db w) ++ [annotation];
                labels := labels (db w) |};
       annotation_seq := annotation_seq w + 1;
       uuid_seed := uuid_seed w |} in
  AnnotationSerializer.create_body validated_data w
  = match AnnotationSerializer.validated_labels validated_data with
    | Some ((_ :: _) as labels_data) =>
        match LabelSerializer.many_run_validation (db w1)
                (map (AnnotationSerializer.with_annotation_id (annotation_seq w))
                     labels_data) with
        | Ok validated_labels =>
            match LabelSerializer.many_save validated_labels w1 with
            | (Ok _, w2) => (Ok annotation, w2)
            | (Raise e, w2) => (Raise e, w2)
            end
        | Raise e => (Raise e, w1)
        end
    | _ => (Ok annotation, w1)
    end.
Proof.
  intros annotation w1. unfold AnnotationSerializer.create_body.
  rewrite bind_run.
  change (Annotation_objects_create _ w) with (Ok annotation, w1).
  cbn iota.
  destruct (AnnotationSerializer.validated_labels validated_data)
    as [[|x r]|]; [done| |done].
  rewrite !bind_run. unfold query at 1. cbn [annotation_pk annotation].
  destruct (LabelSerializer.many_run_validation _ _) as [vs|e]; [|done].
  rewrite bind_run.
  by destruct (LabelSerializer.many_save vs w1) as [[rows|e] w2].
Qed.


(** X2. An annotation whose label payloads all supply an identifier, the
    identifiers differing from one another and from those of the stored
    labels, is created: the call returns the annotation with the next key of
    the sequence, the store gains this annotation and one label row per
    payload, in the order of the batch, and nothing else changes.  Without
    labels, or with an empty list of them, the annotation alone is written. *)
Theorem annotation_create_saves_the_batch
    (validated_data : AnnotationSerializer.validated) (w : World) :
  let labels_data :=
    default [] (AnnotationSerializer.validated_labels validated_data) in
  let annotation :=
    {| annotation_pk := annotation_seq w;
       annotation_image_id :=
         AnnotationSerializer.validated_image_id validated_data |} in
  Forall (λ v, is_Some (LabelSerializer.id_ v)) labels_data →
  NoDup (supplied_ids labels_data) →
  (∀ i, In i (supplied_ids labels_data) →
        ¬ ∃ l, In l (labels (db w)) ∧ label_id l = i) →
  ∃ w', AnnotationSerializer.create validated_data w = (Ok annotation, w')
        ∧ images (db w') = images (db w)
        ∧ annotations (db w') = (annotations (db w) ++ [annotation])%list
        ∧ labels (db w')
          = (labels (db w) ++ batch_rows (annotation_seq w) labels_data)%list
        ∧ annotation_seq w' = annotation_seq w + 1.
Proof.
  intros labels_data annotation Hall Hnodup Hnew.
  assert (∀ i, In i (supplied_ids labels_data) →
               Label_exists i (db w) = false) as Hnew'.
  { intros i Hi. specialize (Hnew i Hi). rewrite <- Label_exists_spec in Hnew.
    by destruct (Label_exists i (db w)). }
  clear Hnew.
  unfold AnnotationSerializer.create.
  pose proof (annotation_create_body_run validated_data w) as Hrun.
  cbv zeta in Hrun. fold annotation in Hrun.
  set (w1 := {| db := _; annotation_seq := _; uuid_seed := _ |}) in Hrun.
  subst labels_data.
  destruct (AnnotationSerializer.validated_labels validated_data)
    as [[|x r]|]; cbn [default] in *.
  - exists w1. rewrite (atomic_body_ok _ _ _ _ Hrun).
    repeat split. cbn. by rewrite app_nil_r.
  - set (ls := x :: r) in *.
    set (ls' := map (AnnotationSerializer.with_annotation_id (annotation_seq w))
                    ls) in *.
    rewrite (many_run_validation_accepts (db w1) ls') in Hrun.
    2:{ subst ls'. by rewrite supplied_ids_with_annotation_id. }
    destruct (many_save_supplied ls' w1) as [w2 Hsave].
    { subst ls'. apply Forall_map. by eapply Forall_impl. }
    { subst ls'. by rewrite supplied_ids_with_annotation_id. }
    { subst ls'. by rewrite supplied_ids_with_annotation_id. }
    rewrite Hsave in Hrun. exists w2.
    rewrite (atomic_body_ok _ _ _ _ Hrun).
    apply many_save_ok in Hsave as [(Hi & Ha & Hl & Hs) _].
    by repeat split.
  - exists w1. rewrite (atomic_body_ok _ _ _ _ Hrun).
    repeat split. cbn. by rewrite app_nil_r.
Qed.

Lemma annotation_create_saves_the_batch_witness :
  ∃ w', AnnotationSerializer.create
          {| AnnotationSerializer.validated_image_id := Some 5;
             AnnotationSerializer.validated_labels :=
               Some [label_payload (Some "a"); label_payload (Some "b")] |}
          world1
        = (Ok {| annotation_pk := 2; annotation_image_id := Some 5 |}, w')
        ∧ images (db w') = []
        ∧ annotations (db w')
          = [annotation1; {| annotation_pk := 2; annotation_image_id := Some 5 |}]
        ∧ labels (db w')
          = [label_abc;
             label_row "a"
               (AnnotationSerializer.with_annotation_id 2 (label_payload (Some "a")));
             label_row "b"
               (AnnotationSerializer.with_annotation_id 2 (label_payload (Some "b")))]
        ∧ annotation_seq w' = 3.
Proof.
  apply (annotation_create_saves_the_batch
           {| AnnotationSerializer.validated_image_id := Some 5;
              AnnotationSerializer.validated_labels :=
                Some [label_payload (Some "a"); label_payload (Some "b")] |}
           world1).
  - repeat constructor; by eexists.
  - compute_done.
  - cbn. intros i [<-|[<-|[]]] (l & [<-|[]] & [=]).
Defined.

(** X3. When the batch passes validation (no supplied identifier is that of
    a stored label) and two of its payloads supply the same identifier, the
    create fails on the uniqueness of the identifier and the rows are those
    at entry: the annotation and the labels inserted before the clash are
    rolled back. *)
Theorem annotation_create_batch_collision
    (validated_data : AnnotationSerializer.validated)
    (labels_data : list LabelSerializer.payload) (w : World) :
  AnnotationSerializer.validated_labels validated_data = Some labels_data →
  (∀ i, In i (supplied_ids labels_data) →
        ¬ ∃ l, In l (labels (db w)) ∧ label_id l = i) →
  ¬ NoDup (supplied_ids labels_data) →
  ∃ w', AnnotationSerializer.create validated_data w
        = (Raise (IntegrityError "label.id"), w')
        ∧ db w' = db w.
Proof.
  intros Hlabels Hnew Hdup.
  assert (∀ i, In i (supplied_ids labels_data) →
               Label_exists i (db w) = false) as Hnew'.
  { intros i Hi. specialize (Hnew i Hi). rewrite <- Label_exists_spec in Hnew.
    by destruct (Label_exists i (db w)). }
  clear Hnew.
  unfold AnnotationSerializer.create.
  pose proof (annotation_create_body_run validated_data w) as Hrun.
  cbv zeta in Hrun. rewrite Hlabels in Hrun.
  set (w1 := {| db := _; annotation_seq := _; uuid_seed := _ |}) in Hrun.
  destruct labels_data as [|x r]; [destruct Hdup; constructor|].
  set (ls := x :: r) in *.
  set (ls' := map (AnnotationSerializer.with_annotation_id (annotation_seq w))
                  ls) in *.
  rewrite (many_run_validation_accepts (db w1) ls') in Hrun.
  2:{ subst ls'. by rewrite supplied_ids_with_annotation_id. }
  destruct (many_save_collision ls' w1) as [w2 Hsave].
  { left. subst ls'. by rewrite supplied_ids_with_annotation_id. }
  rewrite Hsave in Hrun.
  exists (with_db w2 (db w)). split; [|done]. by apply atomic_body_raise.
Qed.

Lemma annotation_create_batch_collision_witness :
  ∃ w', AnnotationSerializer.create
          {| AnnotationSerializer.validated_image_id := Some 5;
             AnnotationSerializer.validated_labels :=
               Some [label_payload (Some "twin"); label_payload None;
                     label_payload (Some "twin")] |}
          world1
        = (Raise (IntegrityError "label.id"), w')
        ∧ db w' = db world1.
Proof.
  apply (annotation_create_batch_collision _
           [label_payload (Some "twin"); label_payload None;
            label_payload (Some "twin")]).
  - reflexivity.
  - cbn. intros i [<-|[<-|[]]] (l & [<-|[]] & [=]).
  - cbn. intros [Hnot _]%NoDup_cons. apply Hnot. set_solver.
Defined.

(** What a successful [AnnotationSerializer.create] has done. *)
Lemma annotation_create_ok
    (validated_data : AnnotationSerializer.validated) (w w' : World)
    (annotation : Annotation) :
  AnnotationSerializer.create validated_data w = (Ok annotation, w') →
  annotation
  = {| annotation_pk := annotation_seq w;
       annotation_image_id :=
         AnnotationSerializer.validated_image_id validated_data |}
  ∧ images (db w') = images (db w)
  ∧ annotations (db w') = (annotations (db w) ++ [annotation])%list
  ∧ ∃ rows,
      labels (db w') = (labels (db w) ++ rows)%list
      ∧ Forall2
          (λ v l,
             l = label_row (label_id l)
                   (AnnotationSerializer.with_annotation_id
                      (annotation_pk annotation) v)
             ∧ ∀ i, LabelSerializer.id_ v = Some i → label_id l = i)
          (default [] (AnnotationSerializer.validated_labels validated_data))
          rows.
Proof.
  unfold AnnotationSerializer.create, atomic.
  rewrite annotation_create_body_run. cbv zeta.
  set (w1 := {| db := _; annotation_seq := _; uuid_seed := _ |}).
  destruct (AnnotationSerializer.validated_labels validated_data)
    as [[|x r]|]; cbn [default].
  - intros [= <- <-]. repeat split. exists []. split; [|constructor].
    cbn. by rewrite app_nil_r.
  - destruct (LabelSerializer.many_run_validation _ _) as [vs|e] eqn:Hv;
      [|done].
    apply many_run_validation_ok in Hv as [-> _].
    destruct (LabelSerializer.many_save _ w1) as [[rows|e] w2] eqn:Hs;
      intros [= <- <-].
    apply many_save_ok in Hs as [(Hi & Ha & Hl & _) HF].
    repeat split; try done. exists rows. split; [done|].
    by apply Forall2_fmap_l in HF.
  - intros [= <- <-]. repeat split. exists []. split; [|constructor].
    cbn. by rewrite app_nil_r.
Qed.

(** X4. Whenever [create] returns an annotation, it is the one with the
    next key of the sequence and the validated [image_id]; the store has
    gained it, and one label row per payload of the batch, in order; the
    images are untouched.  Every one of these rows has the columns of its
    payload and refers to the new annotation, whatever [annotation_id] the
    payload came with, and has the payload's identifier when it supplies
    one. *)
Theorem annotation_create_postcondition
    (validated_data : AnnotationSerializer.validated) (w w' : World)
    (annotation : Annotation) :
  AnnotationSerializer.create validated_data w = (Ok annotation, w') →
  annotation
  = {| annotation_pk := annotation_seq w;
       annotation_image_id :=
         AnnotationSerializer.validated_image_id validated_data |}
  ∧ images (db w') = images (db w)
  ∧ annotations (db w') = (annotations (db w) ++ [annotation])%list
  ∧ ∃ rows,
      labels (db w') = (labels (db w) ++ rows)%list
      ∧ Forall2
          (λ v l,
             label_annotation_id l = Some (annotation_pk annotation)
             ∧ label_class_id l = LabelSerializer.class_id v
             ∧ label_surface l = LabelSerializer.surface v
             ∧ label_shape l = LabelSerializer.shape v
             ∧ label_meta l = LabelSerializer.meta v
             ∧ ∀ i, LabelSerializer.id_ v = Some i → label_id l = i)
          (default [] (AnnotationSerializer.validated_labels validated_data))
          rows.
Proof.
  intros (Ha & Hi & Hann & rows & Hl & HF)%annotation_create_ok.
  repeat split; try done. exists rows. split; [done|].
  eapply Forall2_impl; [exact HF|]. cbn.
  intros v l [-> Hid]. by repeat split.
Qed.

Lemma annotation_create_postcondition_witness :
  ∃ rows,
    labels (db (AnnotationSerializer.create
                  {| AnnotationSerializer.validated_image_id := Some 5;
                     AnnotationSerializer.validated_labels :=
                       Some [label_payload None] |}
                  world1).2)
    = (labels (db world1) ++ rows)%list
    ∧ Forall2
        (λ v l,
           label_annotation_id l = Some 2
           ∧ label_class_id l = LabelSerializer.class_id v
           ∧ label_surface l = LabelSerializer.surface v
           ∧ label_shape l = LabelSerializer.shape v
           ∧ label_meta l = LabelSerializer.meta v
           ∧ ∀ i, LabelSerializer.id_ v = Some i → label_id l = i)
        [label_payload None] rows.
Proof.
  destruct (annotation_create_postcondition
              {| AnnotationSerializer.validated_image_id := Some 5;
                 AnnotationSerializer.validated_labels :=
                   Some [label_payload None] |}
              world1 _ {| annotation_pk := 2; annotation_image_id := Some 5 |}
              eq_refl) as (_ & _ & _ & H).
  exact H.
Defined.

(** ** Validating an annotation payload *)

Lemma IntegerField_cases (v : scalar) :
  (∃ n, IntegerField_to_internal_value v = Ok n)
  ∨ (∃ msg, IntegerField_to_internal_value v
            = Raise (ValidationError (Messages [msg]))).
Proof.
  destruct v as [z|s]; cbn; [by eauto|].
  destruct (MAX_STRING_LENGTH <? Py.len s); [by eauto|].
  destruct (Py.int _); by eauto.
Qed.

Lemma many_run_validation_cases (d : DB)
    (data : list LabelSerializer.payload) :
  LabelSerializer.many_run_validation d data = Ok data
  ∨ ∃ errors, LabelSerializer.many_run_validation d data
              = Raise (ValidationError (ItemErrors errors)).
Proof.
  destruct (LabelSerializer.many_run_validation d data) as [ret|e] eqn:H.
  - left. by apply many_run_validation_ok in H as [-> _].
  - right. revert H. unfold LabelSerializer.many_run_validation.
    destruct (many_collect_total d data) as (ret & errors & -> & _). cbn.
    destruct (existsb _ _); [|done]. intros [= <-]. by eexists.
Qed.

(** The validation of an annotation payload ends in the validated payload
    or in a [ValidationError] keyed by field, never in another exception;
    the validated payload has the labels as they came and the integer that
    [IntegerField] read under [image_id]. *)
Lemma annotation_run_validation_cases (d : DB)
    (data : AnnotationSerializer.payload) :
  (∃ v, AnnotationSerializer.run_validation d data = Ok v
        ∧ AnnotationSerializer.validated_labels v
          = AnnotationSerializer.labels data
        ∧ match AnnotationSerializer.image_id data with
          | Some s =>
              ∃ n, IntegerField_to_internal_value s = Ok n
                   ∧ AnnotationSerializer.validated_image_id v = Some n
          | None => AnnotationSerializer.validated_image_id v = None
          end)
  ∨ (∃ errors, AnnotationSerializer.run_validation d data
               = Raise (ValidationError (FieldErrors errors))).
Proof.
  unfold AnnotationSerializer.run_validation.
  destruct (AnnotationSerializer.image_id data) as [s|]; cbn.
  - destruct (IntegerField_cases s) as [[n ->]|[msg ->]]; cbn;
      (destruct (AnnotationSerializer.labels data) as [ls|]; cbn;
       [destruct (many_run_validation_cases d ls) as [->|[errors ->]]; cbn|]);
      eauto 10.
  - destruct (AnnotationSerializer.labels data) as [ls|]; cbn;
      [destruct (many_run_validation_cases d ls) as [->|[errors ->]]; cbn|];
      eauto 10.
Qed.

(** ** Creating an image, continued *)

Lemma truthy_false (a : AnnotationSerializer.validated) :
  AnnotationSerializer.truthy a = false
  ↔ AnnotationSerializer.validated_image_id a = None
    ∧ AnnotationSerializer.validated_labels a = None.
Proof.
  unfold AnnotationSerializer.truthy.
  destruct (AnnotationSerializer.validated_image_id a),
    (AnnotationSerializer.validated_labels a); cbn; split;
    try done; by intros [? ?].
Qed.

Lemma Image_objects_create_new (stored : string) (w : World) :
  ¬ In {| image_file_name := stored |} (images (db w)) →
  Image_objects_create stored w
  = (Ok {| image_file_name := stored |},
     with_db w {| images := images (db w) ++ [{| image_file_name := stored |}];
                  annotations := annotations (db w);
                  labels := labels (db w) |}).
Proof.
  intros Hnew. unfold Image_objects_create.
  rewrite <- Image_exists_spec in Hnew.
  by destruct (Image_exists stored (db w)).
Qed.

(** X5. An image whose payload has no annotation, or an annotation without
    any key (an empty dictionary is false), is created when its valid name is
    new: the store gains the image row and nothing else; no annotation is
    written and no error is raised for the empty annotation. *)
Theorem image_create_without_annotation
    (validated_data : ImageSerializer.validated) (w : World) :
  let stored :=
    get_valid_filename
      (ImageSerializer.name (ImageSerializer.file validated_data)) in
  (ImageSerializer.annotation validated_data = None
   ∨ ImageSerializer.annotation validated_data
     = Some {| AnnotationSerializer.validated_image_id := None;
               AnnotationSerializer.validated_labels := None |}) →
  ¬ In {| image_file_name := stored |} (images (db w)) →
  ∃ w', ImageSerializer.create validated_data w
        = (Ok {| image_file_name := stored |}, w')
        ∧ images (db w')
          = (images (db w) ++ [{| image_file_name := stored |}])%list
        ∧ annotations (db w') = annotations (db w)
        ∧ labels (db w') = labels (db w)
        ∧ annotation_seq w' = annotation_seq w.
Proof.
  intros stored Hann Hnew. eexists. split.
  - apply atomic_body_ok. rewrite image_create_body_run. cbv zeta.
    fold stored. rewrite (Image_objects_create_new stored w Hnew).
    by destruct Hann as [->| ->].
  - done.
Qed.

Lemma image_create_without_annotation_witness :
  ∃ w', ImageSerializer.create
          {| ImageSerializer.file := image_file "my cat.png" "PNG" 1024;
             ImageSerializer.annotation :=
               Some {| AnnotationSerializer.validated_image_id := None;
                       AnnotationSerializer.validated_labels := None |} |}
          world1
        = (Ok {| image_file_name := "my_cat.png" |}, w')
        ∧ images (db w') = [{| image_file_name := "my_cat.png" |}]
        ∧ annotations (db w') = [annotation1]
        ∧ labels (db w') = [label_abc]
        ∧ annotation_seq w' = 2.
Proof.
  apply (image_create_without_annotation
           {| ImageSerializer.file := image_file "my cat.png" "PNG" 1024;
              ImageSerializer.annotation :=
                Some {| AnnotationSerializer.validated_image_id := None;
                        AnnotationSerializer.validated_labels := None |} |}
           world1).
  - right. reflexivity.
  - intros [].
Defined.

(** X7. Whenever [create] returns an image, the image is the row under the
    valid form of the uploaded name, its rendering is that name under [id]
    and nothing else, and the store has gained the row.  When the payload
    had an annotation with a key, the stored name is one that [IntegerField]
    reads as an integer, the store has gained one annotation whose
    [image_id] is that integer (not a value the client put under
    [image_id]), and one label row per label payload, each referring to the
    new annotation; otherwise annotations and labels are as they were. *)
Theorem image_create_postcondition
    (validated_data : ImageSerializer.validated) (w w' : World)
    (image : Image) :
  let stored :=
    get_valid_filename
      (ImageSerializer.name (ImageSerializer.file validated_data)) in
  ImageSerializer.create validated_data w = (Ok image, w') →
  image = {| image_file_name := stored |}
  ∧ ImageSerializer.to_representation image = [("id", JStr stored)]
  ∧ images (db w') = (images (db w) ++ [image])%list
  ∧ match ImageSerializer.annotation validated_data with
    | Some annotation_data =>
        if AnnotationSerializer.truthy annotation_data then
          ∃ n rows,
            IntegerField_to_internal_value (SStr stored) = Ok n
            ∧ annotations (db w')
              = (annotations (db w)
                 ++ [{| annotation_pk := annotation_seq w;
                        annotation_image_id := Some n |}])%list
            ∧ labels (db w') = (labels (db w) ++ rows)%list
            ∧ Forall2
                (λ v l,
                   label_annotation_id l = Some (annotation_seq w)
                   ∧ ∀ i, LabelSerializer.id_ v = Some i → label_id l = i)
                (default []
                   (AnnotationSerializer.validated_labels annotation_data))
                rows
        else annotations (db w') = annotations (db w)
             ∧ labels (db w') = labels (db w)
    | None => annotations (db w') = annotations (db w)
              ∧ labels (db w') = labels (db w)
    end.
Proof.
  intros stored Hcreate.
  pose proof (image_create_ok _ _ _ _ Hcreate) as [Hname Himages].
  fold stored in Hname.
  assert (image = {| image_file_name := stored |}) as Himage.
  { destruct image. cbn in Hname. by subst. }
  split; [done|]. split; [by rewrite Himage|]. split; [done|].
  revert Hcreate. unfold ImageSerializer.create, atomic.
  rewrite image_create_body_run. cbv zeta. fold stored.
  destruct (Image_objects_create stored w) as [[i|e] w1] eqn:Hi; [|done].
  assert (annotation_seq w1 = annotation_seq w) as Hseq.
  { clear -Hi. revert Hi. unfold Image_objects_create.
    destruct (Image_exists _ _); by intros [= <- <-]. }
  apply Image_objects_create_ok in Hi as (Hiname & _ & _ & Ha1 & Hl1).
  destruct (ImageSerializer.annotation validated_data) as [a|];
    [destruct (AnnotationSerializer.truthy a)|].
  - unfold ImageSerializer.save_annotation. rewrite bind_run. unfold query.
    destruct (annotation_run_validation_cases (db w1)
                (ImageSerializer.with_image_id i a))
      as [(v & -> & Hvl & n & Hn & Hvi)|[errors ->]]; [|done].
    destruct (AnnotationSerializer.create v w1) as [[ann|e] w2] eqn:Hc;
      intros [= <- <-].
    apply annotation_create_ok in Hc as (Hann & _ & Ha2 & rows & Hl2 & HF).
    exists n, rows. rewrite Hiname in Hn. split; [done|].
    rewrite Ha2, Hl2, Ha1, Hl1, Hann, Hvi, Hseq. repeat split.
    rewrite Hvl in HF. cbn in HF.
    eapply Forall2_impl; [exact HF|]. cbn.
    intros x l [-> Hid]. rewrite Hann, Hseq. by split.
  - intros [= <- <-]. by split.
  - intros [= <- <-]. by split.
Qed.

Lemma image_create_postcondition_witness :
  ∃ n rows,
    IntegerField_to_internal_value (SStr "123") = Ok n
    ∧ annotations
        (db (ImageSerializer.create
               {| ImageSerializer.file := image_file "123" "PNG" 1024;
                  ImageSerializer.annotation :=
                    Some {| AnnotationSerializer.validated_image_id := Some 77;
                            AnnotationSerializer.validated_labels :=
                              Some [label_payload (Some "a")] |} |}
               world1).2)
      = (annotations (db world1)
         ++ [{| annotation_pk := 2; annotation_image_id := Some n |}])%list
    ∧ labels
        (db (ImageSerializer.create
               {| ImageSerializer.file := image_file "123" "PNG" 1024;
                  ImageSerializer.annotation :=
                    Some {| AnnotationSerializer.validated_image_id := Some 77;
                            AnnotationSerializer.validated_labels :=
                              Some [label_payload (Some "a")] |} |}
               world1).2)
      = (labels (db world1) ++ rows)%list
    ∧ Forall2
        (λ v l,
           label_annotation_id l = Some 2
           ∧ ∀ i, LabelSerializer.id_ v = Some i → label_id l = i)
        [label_payload (Some "a")] rows.
Proof.
  destruct (image_create_postcondition
              {| ImageSerializer.file := image_file "123" "PNG" 1024;
                 ImageSerializer.annotation :=
                   Some {| AnnotationSerializer.validated_image_id := Some 77;
                           AnnotationSerializer.validated_labels :=
                             Some [label_payload (Some "a")] |} |}
              world1 _ {| image_file_name := "123" |} eq_refl)
    as (_ & _ & _ & H).
  exact H.
Defined.

(** ** Requests *)










(** X9. A request that fails leaves the rows as they were, for each of the
    three serializers: a payload that validation rejects is not saved, and
    a save that raises is undone (for a label there is one insertion, which
    either happens or not). *)
Theorem failed_request_leaves_the_rows :
  (∀ data w e w',
     ImageSerializer.is_valid_then_save data w = (Raise e, w') →
     db w' = db w)
  ∧ (∀ data w e w',
       AnnotationSerializer.is_valid_then_save data w = (Raise e, w') →
       db w' = db w)
  ∧ (∀ data w e w',
       LabelSerializer.is_valid_then_save data w = (Raise e, w') →
       db w' = db w).
Proof.
  repeat split; intros data w e w'.
  - unfold ImageSerializer.is_valid_then_save, query. rewrite bind_run.
    destruct (ImageSerializer.to_internal_value (db w) data) as [v|e1];
      [apply image_create_raise | by intros [= <- <-]].
  - unfold AnnotationSerializer.is_valid_then_save, query. rewrite bind_run.
    destruct (AnnotationSerializer.run_validation (db w) data) as [v|e1];
      [apply atomic_raise | by intros [= <- <-]].
  - unfold LabelSerializer.is_valid_then_save, query. rewrite bind_run.
    destruct (LabelSerializer.run_validation (db w) data) as [v|e1];
      [|by intros [= <- <-]].
    by intros [_ ?]%label_create_raise.
Qed.

Lemma failed_request_leaves_the_rows_witness :
  db (AnnotationSerializer.is_valid_then_save
        {| AnnotationSerializer.image_id := Some (SInt 5);
           AnnotationSerializer.labels :=
             Some [label_payload (Some "twin"); label_payload (Some "twin")] |}
        world1).2
  = db world1.
Proof.
  apply (proj1 (proj2 failed_request_leaves_the_rows)
           {| AnnotationSerializer.image_id := Some (SInt 5);
              AnnotationSerializer.labels :=
                Some [label_payload (Some "twin"); label_payload (Some "twin")] |}
           world1 (IntegrityError "label.id")).
  reflexivity.
Defined.

(** ** The stored name *)

Lemma filter_chars_length (keep : ascii → bool) (s : string) :
  (String.length (Py.filter_chars keep s) ≤ String.length s)%nat.
Proof.
  induction s as [|c s IH]; [done|]. cbn. destruct (keep c); cbn; lia.
Qed.

Lemma filter_chars_fixed_cons (keep : ascii → bool) (c : ascii) (s : string) :
  Py.filter_chars keep (String c s) = String c s →
  keep c = true ∧ Py.filter_chars keep s = s.
Proof.
  cbn. destruct (keep c); [by intros [= ->]|].
  intros H. apply (f_equal String.length) in H. cbn in H.
  pose proof (filter_chars_length keep s). lia.
Qed.

Lemma filter_chars_idem (keep : ascii → bool) (s : string) :
  Py.filter_chars keep (Py.filter_chars keep s) = Py.filter_chars keep s.
Proof.
  induction s as [|c s IH]; [done|]. cbn.
  destruct (keep c) eqn:Hc; [|done]. cbn. by rewrite Hc, IH.
Qed.

Lemma filename_char_is_plain (c : ascii) :
  is_filename_char c = true →
  Py.is_space c = false ∧ Ascii.eqb c " " = false.
Proof.
  destruct c as [[] [] [] [] [] [] [] []]; vm_compute; intros H;
    split; congruence.
Qed.

(** A string of file-name characters goes through [get_valid_filename]
    unchanged. *)
Lemma get_valid_filename_fixed (s : string) :
  Py.filter_chars is_filename_char s = s → get_valid_filename s = s.
Proof.
  intros Hs. unfold get_valid_filename, Py.strip.
  assert (Py.lstrip s = s) as ->.
  { destruct s as [|c r]; [done|].
    apply filter_chars_fixed_cons in Hs as [Hc _].
    apply filename_char_is_plain in Hc as [Hc _]. cbn. by rewrite Hc. }
  assert (Py.rstrip s = s) as ->.
  { induction s as [|c r IH]; [done|].
    apply filter_chars_fixed_cons in Hs as [Hc Hr].
    apply filename_char_is_plain in Hc as [Hc _].
    cbn [Py.rstrip Py.all_space]. rewrite Hc. cbn. by rewrite (IH Hr). }
  assert (Py.replace_char " " "_" s = s) as ->; [|done].
  induction s as [|c r IH]; [done|].
  apply filter_chars_fixed_cons in Hs as [Hc Hr].
  apply filename_char_is_plain in Hc as [_ Hc].
  cbn. by rewrite Hc, (IH Hr).
Qed.

Lemma get_valid_filename_idem (name : string) :
  get_valid_filename (get_valid_filename name) = get_valid_filename name.
Proof.
  apply get_valid_filename_fixed. unfold get_valid_filename.
  apply filter_chars_idem.
Qed.

(** X8. The name under which an image has been stored, which is the [id]
    of its rendering, is taken: as long as the row is there, a file uploaded
    under that very name is rejected as a duplicate, whatever its format and
    size. *)
Theorem stored_name_is_taken (validated_data : ImageSerializer.validated)
    (w w' : World) (image : Image) (f : ImageSerializer.UploadedFile) :
  ImageSerializer.create validated_data w = (Ok image, w') →
  ImageSerializer.to_representation image
  = [("id", JStr (ImageSerializer.name f))] →
  ImageSerializer.validate_file (db w') f = Raise duplicate_file.
Proof.
  intros [Hname Himages]%image_create_ok [= Hid].
  apply validate_file_cases. rewrite <- Hid, Hname, get_valid_filename_idem.
  rewrite <- Hname, Himages. apply in_or_app. right. left. by destruct image.
Qed.

Lemma stored_name_is_taken_witness :
  ImageSerializer.validate_file
    (db (ImageSerializer.create
           {| ImageSerializer.file := image_file " my cat (1).png" "PNG" 1024;
              ImageSerializer.annotation := None |}
           world1).2)
    (image_file "my_cat_1.png" "GIF" 99999999)
  = Raise duplicate_file.
Proof.
  apply (stored_name_is_taken
           {| ImageSerializer.file := image_file " my cat (1).png" "PNG" 1024;
              ImageSerializer.annotation := None |}
           world1 _ {| image_file_name := "my_cat_1.png" |});
    reflexivity.
Defined.

(** ** Rendering an annotation, continued *)

Lemma label_to_representation_export (context : LabelSerializer.Context)
    (request : LabelSerializer.Request) (instance : Label) :
  context !! "request" = Some request →
  Py.lower (default "" (LabelSerializer.query_params request !! "format"))
  = "export" →
  LabelSerializer.to_representation context instance
  = Ok (export_view instance).
Proof.
  intros Hreq Hfmt.
  unfold LabelSerializer.to_representation, LabelSerializer.EXPORT_FORMAT_KEY.
  rewrite Hreq, Hfmt. cbn. by rewrite join_items_strs.
Qed.

Lemma label_to_representation_full (context : LabelSerializer.Context)
    (request : LabelSerializer.Request) (instance : Label) :
  context !! "request" = Some request →
  Py.lower (default "" (LabelSerializer.query_params request !! "format"))
  ≠ "export" →
  LabelSerializer.to_representation context instance
  = Ok (full_view instance).
Proof.
  intros Hreq Hfmt%String.eqb_neq.
  unfold LabelSerializer.to_representation, LabelSerializer.EXPORT_FORMAT_KEY.
  by rewrite Hreq, Hfmt.
Qed.

Lemma render_labels_map (context : LabelSerializer.Context)
    (view : Label → dict json) (ls : list Label) :
  (∀ l, LabelSerializer.to_representation context l = Ok (view l)) →
  AnnotationSerializer.render_labels context ls
  = Ok (map (λ l, JDict (view l)) ls).
Proof.
  intros Hview. induction ls as [|l ls IH]; [done|].
  cbn. rewrite Hview. cbn. by rewrite IH.
Qed.

(** X11. The labels nested in the rendering of an annotation follow the
    request of the annotation's serializer: with [format] equal to [export]
    up to case, every label of the annotation is rendered in the export form
    ([id], [class_id], joined [surface]); with any other value, or none,
    every label is rendered in full.  The labels come in the order of the
    table. *)
Theorem annotation_rendering_follows_format
    (context : LabelSerializer.Context) (request : LabelSerializer.Request)
    (d : DB) (instance : Annotation) :
  context !! "request" = Some request →
  let format_param :=
    default "" (LabelSerializer.query_params request !! "format") in
  (Py.lower format_param = "export" →
   AnnotationSerializer.to_representation context d instance
   = Ok [("labels",
          JList (map (λ l, JDict (export_view l))
                     (Annotation_labels instance d)))])
  ∧ (Py.lower format_param ≠ "export" →
     AnnotationSerializer.to_representation context d instance
     = Ok [("labels",
            JList (map (λ l, JDict (full_view l))
                       (Annotation_labels instance d)))]).
Proof.
  intros Hreq format_param. rewrite annotation_to_representation_unfold.
  split; intros Hfmt.
  - rewrite (render_labels_map context export_view); [done|].
    intros l. by eapply label_to_representation_export.
  - rewrite (render_labels_map context full_view); [done|].
    intros l. by eapply label_to_representation_full.
Qed.

Lemma annotation_rendering_follows_format_witness :
  AnnotationSerializer.to_representation (context_of (request_with "EXPORT"))
    db1 annotation1
  = Ok [("labels",
         JList
           [JDict
              [("id", JStr "6f1c0a52-0d1e-4a63-9c57-2f0f5b8f3a10");
               ("class_id", JStr "car");
               ("surface", JStr "ABC")]])].
Proof.
  apply (annotation_rendering_follows_format
           (context_of (request_with "EXPORT")) (request_with "EXPORT")
           db1 annotation1); reflexivity.
Defined.

(** X12. Without a request in the context, an annotation that has no label
    is rendered, as an empty list of labels; an annotation that has a label
    cannot be rendered: the nested label serializer raises [KeyError]. *)
Theorem annotation_rendering_without_request
    (context : LabelSerializer.Context) (d : DB) (instance : Annotation) :
  context !! "request" = None →
  (Annotation_labels instance d = [] →
   AnnotationSerializer.to_representation context d instance
   = Ok [("labels", JList [])])
  ∧ (Annotation_labels instance d ≠ [] →
     AnnotationSerializer.to_representation context d instance
     = Raise (KeyError "request")).
Proof.
  intros Hreq. rewrite annotation_to_representation_unfold.
  destruct (Annotation_labels instance d) as [|l ls]; split; try done.
  intros _. cbn. unfold LabelSerializer.to_representation. by rewrite Hreq.
Qed.

Lemma annotation_rendering_without_request_witness :
  AnnotationSerializer.to_representation ∅ db1 annotation1
  = Raise (KeyError "request")
  ∧ AnnotationSerializer.to_representation ∅ empty_db annotation1
    = Ok [("labels", JList [])].
Proof.
  split.
  - apply (annotation_rendering_without_request ∅ db1 annotation1);
      [reflexivity | discriminate].
  - apply (annotation_rendering_without_request ∅ empty_db annotation1);
      reflexivity.
Defined.

(** ** Payloads that are not wrapped *)

Lemma getitem0_raise (val : ImageSerializer.value) (e : exn) :
  ImageSerializer.getitem0 val = Raise e → ∀ det, e ≠ ValidationError det.
Proof.
  destruct val as [[|c s]|f|a|[|x l]]; cbn; intros [= <-]; done.
Qed.

Lemma unpack_raise (data : dict ImageSerializer.value) (e : exn) :
  ImageSerializer.unpack data = Raise e → ∀ det, e ≠ ValidationError det.
Proof.
  induction data as [|[k v] r IH]; [done|].
  cbn [ImageSerializer.unpack].
  destruct (ImageSerializer.truthy v).
  - destruct (ImageSerializer.getitem0 v) as [v'|e'] eqn:Hv; cbn.
    + destruct (ImageSerializer.unpack r) as [r'|e']; [done|].
      cbn. intros [= <-]. by apply IH.
    + intros [= <-]. by eapply getitem0_raise.
  - cbn. destruct (ImageSerializer.unpack r) as [r'|e']; [done|].
    cbn. intros [= <-]. by apply IH.
Qed.

Lemma unpack_stops (data : dict ImageSerializer.value) (key : string)
    (val : ImageSerializer.value) :
  In (key, val) data →
  ImageSerializer.truthy val = true →
  (∃ e, ImageSerializer.getitem0 val = Raise e) →
  ∃ e, ImageSerializer.unpack data = Raise e.
Proof.
  intros Hin Htruthy [e0 He0].
  induction data as [|[k v] r IH]; [done|].
  cbn [ImageSerializer.unpack].
  destruct Hin as [[= -> ->]|Hin].
  - rewrite Htruthy, He0. by eexists.
  - destruct (IH Hin) as [e ->].
    destruct (if ImageSerializer.truthy v then _ else _); by eexists.
Qed.

(** X13. The loop of [to_internal_value] indexes every true value, list or
    not.  A payload that holds a named file or a non-empty annotation
    dictionary that is not wrapped in a list is not validated at all: the
    loop raises, and what it raises is not a [ValidationError].  A plain
    string that gets through the loop is cut down to its first character. *)
Theorem unwrapped_payload (d : DB) (data : dict ImageSerializer.value) :
  ((∃ key f, In (key, ImageSerializer.VFile f) data
             ∧ ImageSerializer.name f ≠ "")
   ∨ (∃ key a, In (key, ImageSerializer.VAnnotation a) data
               ∧ ImageSerializer.payload_truthy a = true) →
   ∃ e, ImageSerializer.to_internal_value d data = Raise e
        ∧ ∀ det, e ≠ ValidationError det)
  ∧ (∀ data' key c s,
       ImageSerializer.unpack data = Ok data' →
       Drf.get key data = Some (ImageSerializer.VStr (String c s)) →
       Drf.get key data' = Some (ImageSerializer.VStr (String c ""))).
Proof.
  split.
  - intros Hbad.
    assert (∃ e, ImageSerializer.unpack data = Raise e) as [e He].
    { destruct Hbad as [(key & f & Hin & Hname)|(key & a & Hin & Ha)].
      - apply (unpack_stops data key (ImageSerializer.VFile f) Hin);
          [|by eexists].
        cbn. by apply String.eqb_neq in Hname as ->.
      - by apply (unpack_stops data key (ImageSerializer.VAnnotation a) Hin);
          [|eexists]. }
    exists e. split; [|by eapply unpack_raise].
    unfold ImageSerializer.to_internal_value. by rewrite He.
  - induction data as [|[k v] r IH]; intros data' key c s; [done|].
    cbn [ImageSerializer.unpack].
    destruct (if ImageSerializer.truthy v then ImageSerializer.getitem0 v
              else Ok v) as [v'|e] eqn:Hv; [|done].
    cbn. destruct (ImageSerializer.unpack r) as [r'|e]; [|done].
    cbn. intros [= <-]. rewrite !get_cons.
    destruct (String.eqb k key); [|by apply IH].
    intros [= ->]. cbn in Hv. congruence.
Qed.

Lemma unwrapped_payload_witness :
  ∃ e, ImageSerializer.to_internal_value empty_db
         [("file", ImageSerializer.VFile (image_file "cat.png" "PNG" 1024))]
       = Raise e
       ∧ ∀ det, e ≠ ValidationError det.
Proof.
  apply (unwrapped_payload empty_db
           [("file", ImageSerializer.VFile (image_file "cat.png" "PNG" 1024))]).
  left. exists "file", (image_file "cat.png" "PNG" 1024).
  split; [by left | discriminate].
Defined.

(** ** Identifiers that have been written *)

Lemma Forall2_In_l {A B} (P : A → B → Prop) (xs : list A) (ys : list B)
    (x : A) :
  Forall2 P xs ys → In x xs → ∃ y, In y ys ∧ P x y.
Proof.
  intros HF. induction HF as [|a b xs ys Hab HF IH]; [done|].
  intros [<-|Hin].
  - exists b. split; [by left|done].
  - destruct (IH Hin) as (y & Hy & HP). exists y. split; [by right|done].
Qed.

(** X14. Once an annotation has been created, every identifier that its
    batch supplied is taken: a later label payload with one of them is
    rejected by validation with the duplicate-identifier error. *)
Theorem created_identifiers_are_taken
    (validated_data : AnnotationSerializer.validated)
    (labels_data : list LabelSerializer.payload) (w w' : World)
    (annotation : Annotation) (label later : LabelSerializer.payload)
    (i : string) :
  AnnotationSerializer.create validated_data w = (Ok annotation, w') →
  AnnotationSerializer.validated_labels validated_data = Some labels_data →
  In label labels_data →
  LabelSerializer.id_ label = Some i →
  LabelSerializer.id_ later = Some i →
  LabelSerializer.run_validation (db w') later
  = Raise (duplicate_identifier i).
Proof.
  intros (_ & _ & _ & rows & Hl & HF)%annotation_create_ok Hlabels Hin Hi Hlater.
  rewrite Hlabels in HF. cbn in HF.
  destruct (Forall2_In_l _ _ _ _ HF Hin) as (l & Hrow & _ & Hid).
  rewrite (label_run_validation_some _ _ _ Hlater).
  replace (Label_exists i (db w')) with true; [done|].
  symmetry. apply Label_exists_spec. exists l. split; [|by apply Hid].
  rewrite Hl. apply in_or_app. by right.
Qed.

Lemma created_identifiers_are_taken_witness :
  LabelSerializer.run_validation
    (db (AnnotationSerializer.create
           {| AnnotationSerializer.validated_image_id := None;
              AnnotationSerializer.validated_labels :=
                Some [label_payload (Some "a"); label_payload (Some "b")] |}
           world1).2)
    (label_payload (Some "b"))
  = Raise (duplicate_identifier "b").
Proof.
  apply (created_identifiers_are_taken
           {| AnnotationSerializer.validated_image_id := None;
              AnnotationSerializer.validated_labels :=
                Some [label_payload (Some "a"); label_payload (Some "b")] |}
           [label_payload (Some "a"); label_payload (Some "b")]
           world1 _ {| annotation_pk := 2; annotation_image_id := None |}
           (label_payload (Some "b")));
    [reflexivity | reflexivity | right; left; reflexivity
    | reflexivity | reflexivity].
Defined.
